(** * Baud-rate detector: the rate cycler, the detection loop and the
      minicom configuration writer of [baudrate.py], embedded and verified.

    The Python object [BaudrateDetector] becomes a record, its methods become
    functions that pass the record along, and everything the program obtains
    from outside (clock readings, what [serial.read(1)] delivers, the keys the
    operator presses, whether a file can be opened) is an explicit input. *)

From Stdlib Require Import ZArith QArith List String Ascii Bool Lia.
Import ListNotations.
Local Open Scope string_scope.
Local Open Scope Z_scope.

(** ** The Python values and built-ins the program relies on *)

(** Exceptions that the modelled code raises, and those that a library
    call of [main] raises when the machine fails it. *)
Inductive exn : Type :=
| TypeError
| ValueError
| IndexError
| KeyboardInterrupt
| EOFError
| OSError.

(** The result of an expression that may raise. *)
Inductive outcome (A : Type) : Type :=
| Ok (a : A)
| Raise (e : exn).
Arguments Ok {A} a.
Arguments Raise {A} e.

(** The two kinds of Python objects that meet in the classifier: text
    ([str], as produced by [chr] and by string literals) and binary data
    ([bytes], as delivered by [serial.read] and accepted by
    [sys.stderr.buffer.write]).  Both carry code points below 256. *)
Inductive pyval : Type :=
| Str (s : string)
| Bytes (b : string).

(** [ord] of a character. *)
Definition ord (c : ascii) : Z := Z.of_N (N_of_ascii c).

(** [chr(i)], a one-character [str]. *)
Definition chr (i : nat) : pyval := Str (String (ascii_of_nat i) EmptyString).

(** [range(a, b)] *)
Definition range (a b : nat) : list nat := seq a (b - a).

(** [x == y]: objects of different kinds are never equal. *)
Definition py_eq (x y : pyval) : bool :=
  match x, y with
  | Str a, Str b => String.eqb a b
  | Bytes a, Bytes b => String.eqb a b
  | _, _ => false
  end.

(** [x in l] for a list [l]: some element equals [x]. *)
Definition py_in_list (x : pyval) (l : list pyval) : bool :=
  existsb (py_eq x) l.

(** [needle] occurs in [hay] as a substring. *)
Fixpoint contains (needle hay : string) : bool :=
  prefix needle hay
  || match hay with
     | EmptyString => false
     | String _ hay' => contains needle hay'
     end.

(** [x in lit] for a [str] literal [lit]: a substring test for text, a
    [TypeError] for binary data. *)
Definition py_in_str (x : pyval) (lit : string) : outcome bool :=
  match x with
  | Str s => Ok (contains s lit)
  | Bytes _ => Raise TypeError
  end.

(** White space as [str.isspace] sees it (code points below 256). *)
Definition str_space (c : ascii) : bool :=
  let n := ord c in
  ((9 <=? n) && (n <=? 13)) || ((28 <=? n) && (n <=? 32))
  || (n =? 133) || (n =? 160).

(** White space as [bytes.isspace] sees it. *)
Definition bytes_space (c : ascii) : bool :=
  let n := ord c in
  ((9 <=? n) && (n <=? 13)) || (n =? 32).

Fixpoint all_chars (p : ascii -> bool) (s : string) : bool :=
  match s with
  | EmptyString => true
  | String c s' => p c && all_chars p s'
  end.

(** [x.isspace()]: non-empty and made of white space only. *)
Definition py_isspace (x : pyval) : bool :=
  match x with
  | Str EmptyString | Bytes EmptyString => false
  | Str s => all_chars str_space s
  | Bytes b => all_chars bytes_space b
  end.

(** Truth value of an object in a condition: non-empty. *)
Definition py_truthy (x : pyval) : bool :=
  match x with
  | Str EmptyString | Bytes EmptyString => false
  | _ => true
  end.

(** [l[i]]: negative indices count from the end, anything else out of
    range raises [IndexError]. *)
Definition py_getitem {A : Type} (l : list A) (i : Z) : outcome A :=
  let n := Z.of_nat (List.length l) in
  let j := if i <? 0 then i + n else i in
  if (0 <=? j) && (j <? n) then
    match nth_error l (Z.to_nat j) with
    | Some a => Ok a
    | None => Raise IndexError
    end
  else Raise IndexError.

Definition digit_value (c : ascii) : option Z :=
  let n := ord c in
  if (48 <=? n) && (n <=? 57) then Some (n - 48) else None.

Fixpoint int_digits (acc : Z) (s : string) : outcome Z :=
  match s with
  | EmptyString => Ok acc
  | String c s' =>
      match digit_value c with
      | Some v => int_digits (10 * acc + v) s'
      | None => Raise ValueError
      end
  end.

(** [int(s)] on a plain decimal numeral; every other string is answered
    with [ValueError] (the program only ever converts entries of its rate
    table, which are plain numerals). *)
Definition py_int (s : string) : outcome Z :=
  match s with
  | EmptyString => Raise ValueError
  | _ => int_digits 0 s
  end.

(** ** The detector object *)

(** What the program does to the serial port, in order. *)
Inductive serial_op : Type :=
| Flush
| SetBaudrate (r : Z).

(** The open port: [serial.Serial(self.port, timeout=self.timeout)]. *)
Record Serial : Type := mkSerial {
  ser_port : string;
  ser_timeout : Z;
  baudrate : Z;
  ser_ops : list serial_op
}.

Definition flush (s : Serial) : Serial :=
  mkSerial (ser_port s) (ser_timeout s) (baudrate s) (ser_ops s ++ [Flush]).

Definition set_baudrate (s : Serial) (r : Z) : Serial :=
  mkSerial (ser_port s) (ser_timeout s) r (ser_ops s ++ [SetBaudrate r]).

(** The key-press thread of manual mode. *)
Inductive thread_state : Type :=
| NotStarted
| Listening
| Ended.

(** [self].  [openSerialPort] either binds [self.serial] or ends the
    process, so the cycler and the loop only ever see an open port. *)
Record detector : Type := mkDetector {
  port : string;
  threshold : Z;
  timeout : Z;
  name : option string;
  autoDetect : bool;
  verbose : bool;
  index : Z;
  ctlc : bool;
  serial : Serial;
  thread : thread_state
}.

Definition set_index (d : detector) (i : Z) : detector :=
  mkDetector (port d) (threshold d) (timeout d) (name d) (autoDetect d)
             (verbose d) i (ctlc d) (serial d) (thread d).

Definition set_ctlc (d : detector) (b : bool) : detector :=
  mkDetector (port d) (threshold d) (timeout d) (name d) (autoDetect d)
             (verbose d) (index d) b (serial d) (thread d).

Definition set_serial (d : detector) (s : Serial) : detector :=
  mkDetector (port d) (threshold d) (timeout d) (name d) (autoDetect d)
             (verbose d) (index d) (ctlc d) s (thread d).

Definition set_thread (d : detector) (t : thread_state) : detector :=
  mkDetector (port d) (threshold d) (timeout d) (name d) (autoDetect d)
             (verbose d) (index d) (ctlc d) (serial d) t.

(** [serial.Serial] starts at pyserial's default of 9600 baud.  It takes
    the read time-out as given; pyserial accepts one that is not
    negative. *)
Definition openSerialPort (p : string) (t : Z) : Serial :=
  mkSerial p t 9600 [].

(** [__init__] followed by a successful [openSerialPort]. *)
Definition BaudrateDetector (p : string) (thr tmo : Z) (nm : option string)
           (auto verb : bool) : detector :=
  mkDetector p thr tmo nm auto verb 0 false (openSerialPort p tmo) NotStarted.

(** [_generateCharList]: [self.validCharacters], assigned once by the
    constructor from no input and never changed afterwards. *)
Definition _generateCharList : list pyval := map chr (range 32 127).
Definition validCharacters : list pyval := _generateCharList.

Definition BAUDRATES : list string :=
  [ "110"; "150"; "300"; "600"; "800"; "1200"; "1600"; "1800"; "2400";
    "2604"; "3200"; "4800";
    "5208"; "6400"; "9600"; "9606"; "10417"; "12800"; "14400"; "15625";
    "14406"; "19200"; "19211";
    "25600"; "26042"; "28800"; "31250"; "38400"; "38422"; "52083"; "57600";
    "57692"; "78600";
    "104167"; "115200"; "115384"; "156250"; "230400"; "230769"; "256000";
    "312500"; "460800";
    "461538"; "921600"; "923076" ].

(** ** The rate cycler *)

Section Cycler.

(** The candidate rate list; the program's own is [BAUDRATES]. *)
Variable rates : list string.

Definition nrates : Z := Z.of_nat (List.length rates).

(** Lines 74-79: the index after [self.index += updn] and the wrap. *)
Definition wrap_index (i : Z) : Z :=
  if nrates <=? i then 0
  else if i <? 0 then nrates - 1
  else i.

(** [nextBaudrate(updn)].  The index is stored before the port is
    touched, so it keeps its new value when the conversion raises. *)
Definition nextBaudrate (updn : Z) (d : detector) : outcome unit * detector :=
  let d1 := set_index d (wrap_index (index d + updn)) in
  let d2 := set_serial d1 (flush (serial d1)) in
  match py_getitem rates (index d2) with
  | Raise e => (Raise e, d2)
  | Ok s =>
      match py_int s with
      | Raise e => (Raise e, d2)
      | Ok r => (Ok tt, set_serial d2 (flush (set_baudrate (serial d2) r)))
      end
  end.

(** A sequence of calls, stopping at the first that raises. *)
Fixpoint nextBaudrates (updns : list Z) (d : detector)
  : outcome unit * detector :=
  match updns with
  | [] => (Ok tt, d)
  | u :: us =>
      match nextBaudrate u d with
      | (Ok _, d') => nextBaudrates us d'
      | r => r
      end
  end.

End Cycler.

(** A rate-table entry that [int] converts. *)
Definition numeral (s : string) : bool :=
  match py_int s with Ok _ => true | Raise _ => false end.

(** ** The detection loop *)

(** The local variables of [detectBaudrate].  [startTime] is a clock
    reading, with [0] standing for a timer that is not set. *)
Record locals : Type := mkLocals {
  count : Z;
  whitespace : Z;
  punctuation : Z;
  vowels : Z;
  startTime : Q;
  timedOut : bool;
  clearCounters : bool
}.

Definition set_counters (l : locals) (c w p v : Z) : locals :=
  mkLocals c w p v (startTime l) (timedOut l) (clearCounters l).

Definition set_startTime (l : locals) (t : Q) : locals :=
  mkLocals (count l) (whitespace l) (punctuation l) (vowels l) t
           (timedOut l) (clearCounters l).

Definition set_timedOut (l : locals) (b : bool) : locals :=
  mkLocals (count l) (whitespace l) (punctuation l) (vowels l) (startTime l)
           b (clearCounters l).

Definition set_clearCounters (l : locals) (b : bool) : locals :=
  mkLocals (count l) (whitespace l) (punctuation l) (vowels l) (startTime l)
           (timedOut l) b.

(** Lines 86-92. *)
Definition locals0 : locals := mkLocals 0 0 0 0 0%Q false false.

(** What one turn of the loop receives from outside.  Clock readings are
    the seconds that [time.time()] returns, taken as exact rationals. *)
Record event : Type := mkEvent {
  keys : list string;   (* keys read by the key-press thread meanwhile *)
  t_start : Q;          (* [time.time()] on line 100 *)
  rx : option ascii;    (* the byte that arrived before the read timeout *)
  t_check : Q           (* [time.time()] on line 121 *)
}.

(** [self.serial.read(1)]: a [bytes] object of length one, or the empty
    one when the read timed out. *)
Definition serial_read (o : option ascii) : pyval :=
  match o with
  | Some b => Bytes (String b EmptyString)
  | None => Bytes EmptyString
  end.

(** [sys.stderr.buffer.write(byte)]: a binary stream takes binary data
    only. *)
Definition echo (byte : pyval) : outcome unit :=
  match byte with
  | Bytes _ => Ok tt
  | Str _ => Raise TypeError
  end.

(** Lines 99-100. *)
Definition armTimer (ev : event) (l : locals) : locals :=
  if Qeq_bool (startTime l) 0 then set_startTime l (t_start ev) else l.

(** Lines 106-111: the sub-tag of a byte found in [validCharacters]. *)
Definition subtag (byte : pyval) (l : locals) : outcome locals :=
  if py_isspace byte then
    Ok (set_counters l (count l) (whitespace l + 1) (punctuation l) (vowels l))
  else
    match py_in_str byte ".,:;?!" with
    | Raise e => Raise e
    | Ok true =>
        Ok (set_counters l (count l) (whitespace l) (punctuation l + 1)
                         (vowels l))
    | Ok false =>
        match py_in_str byte "aeiouAEIOU" with
        | Raise e => Raise e
        | Ok true =>
            Ok (set_counters l (count l) (whitespace l) (punctuation l)
                             (vowels l + 1))
        | Ok false => Ok l
        end
    end.

(** Lines 105-115: what a byte that was read does to the counters. *)
Definition classify (d : detector) (byte : pyval) (l : locals)
  : outcome locals :=
  if autoDetect d && py_in_list byte validCharacters then
    match subtag byte l with
    | Raise e => Raise e
    | Ok l' =>
        Ok (set_counters l' (count l' + 1) (whitespace l') (punctuation l')
                         (vowels l'))
    end
  else Ok (set_clearCounters l true).

(** The test of line 119. *)
Definition success_condition (d : detector) (l : locals) : bool :=
  (threshold d <=? count l) && (0 <? whitespace l) && (0 <? punctuation l)
  && (0 <? vowels l).

(** The test of line 121: [(time.time() - startTime) >= self.timeout].
    The source subtracts two floating-point readings, the model the same
    readings as exact rationals.  Rounding is monotone, so the source's
    test holds whenever this one does; it fails whenever this one does
    provided the timer reading is at least the time-out (as a reading of
    [time.time()] is), since the difference of two such readings below
    the time-out is computed without rounding.  Statements that rest on
    the test failing carry that proviso. *)
Definition window_elapsed (d : detector) (now : Q) (l : locals) : bool :=
  Qle_bool (inject_Z (timeout d)) (now - startTime l)%Q.

(** Lines 102-124.  The boolean tells whether line 120 left the loop. *)
Definition receive (ev : event) (l : locals) (d : detector)
  : outcome (bool * locals) :=
  let byte := serial_read (rx ev) in
  if py_truthy byte then
    match classify d byte l with
    | Raise e => Raise e
    | Ok l1 =>
        match echo byte with
        | Raise e => Raise e
        | Ok _ =>
            if success_condition d l1 then Ok (true, l1)
            else if window_elapsed d (t_check ev) l1
                 then Ok (false, set_timedOut l1 true)
                 else Ok (false, l1)
        end
    end
  else Ok (false, set_timedOut l true).

(** Lines 126-130. *)
Definition rateChange (l : locals) (d : detector)
  : outcome unit * locals * detector :=
  if timedOut l && autoDetect d then
    let l1 := set_startTime l 0%Q in
    match nextBaudrate BAUDRATES (-1) d with
    | (Raise e, d') => (Raise e, l1, d')
    | (Ok _, d') =>
        (Ok tt, set_timedOut (set_clearCounters l1 true) false, d')
    end
  else (Ok tt, l, d).

(** Lines 132-137. *)
Definition resetCounters (l : locals) : locals :=
  if clearCounters l then set_clearCounters (set_counters l 0 0 0 0) false
  else l.

(** How one turn of the loop ends. *)
Inductive flow : Type :=
| Next                 (* back to line 98 *)
| BreakSuccess         (* line 120 *)
| BreakCtlc            (* line 140 *)
| Raised (e : exn).    (* an exception leaves the method *)

(** Lines 99-140, one turn of [while True]. *)
Definition body (ev : event) (l : locals) (d : detector)
  : flow * locals * detector :=
  let l0 := armTimer ev l in
  match receive ev l0 d with
  | Raise e => (Raised e, l0, d)
  | Ok (true, l1) => (BreakSuccess, l1, d)
  | Ok (false, l1) =>
      match rateChange l1 d with
      | (Raise e, l2, d2) => (Raised e, l2, d2)
      | (Ok _, l2, d2) =>
          let l3 := resetCounters l2 in
          if ctlc d2 then (BreakCtlc, l3, d2) else (Next, l3, d2)
      end
  end.

(** [handleKeypress], fed the keys that [userinput()] returns in turn.
    The thread ends when it finds [self.ctlc] set, and dies when
    [nextBaudrate] raises. *)
Fixpoint handleKeypress (ks : list string) (d : detector) {struct ks}
  : detector :=
  if ctlc d then set_thread d Ended
  else
    match ks with
    | [] => d
    | c :: ks' =>
        if contains c "uUAdD" then
          match nextBaudrate BAUDRATES 1 d with
          | (Ok _, d') => handleKeypress ks' d'
          | (Raise _, d') => set_thread d' Ended
          end
        else if String.eqb c (String (ascii_of_nat 3) EmptyString) then
          handleKeypress ks' (set_ctlc d true)
        else handleKeypress ks' d
    end.

(** The key-press thread runs beside the loop once it was started; the
    loop reads what it shares with the thread ([self.ctlc], [self.index])
    only after its own read of the port, so the keys of a turn take effect
    before the turn's body. *)
Definition keypresses (ks : list string) (d : detector) : detector :=
  match thread d with
  | Listening => handleKeypress ks d
  | _ => d
  end.

(** One turn of the loop together with what the key-press thread did
    since the turn before. *)
Definition iteration (ev : event) (l : locals) (d : detector)
  : flow * locals * detector :=
  body ev l (keypresses (keys ev) d).

(** The loop over the events supplied; [Next] when they run out while
    the loop is still turning. *)
Fixpoint loop (evs : list event) (l : locals) (d : detector)
  : flow * locals * detector :=
  match evs with
  | [] => (Next, l, d)
  | ev :: evs' =>
      match iteration ev l d with
      | (Next, l', d') => loop evs' l' d'
      | r => r
      end
  end.

(** What a call of [detectBaudrate] has produced so far. *)
Inductive result : Type :=
| StillLooping
| Returned (rate : string)
| Failed (e : exn).

(** Line 142, reached from either [break]. *)
Definition loop_return (f : flow) (d : detector) : result :=
  match f with
  | Next => StillLooping
  | Raised e => Failed e
  | BreakSuccess | BreakCtlc =>
      match py_getitem BAUDRATES (index d) with
      | Ok s => Returned s
      | Raise e => Failed e
      end
  end.

(** Lines 94-96. *)
Definition startThread (d : detector) : detector :=
  if autoDetect d then d else set_thread d Listening.

(** [detectBaudrate]: the value returned, and [self] afterwards. *)
Definition detectBaudrate (d : detector) (evs : list event)
  : result * detector :=
  match loop evs locals0 (startThread d) with
  | (f, _, d') => (loop_return f d', d')
  end.

(** Lines 195-196 of [main]: what is printed once the call has returned. *)
Definition main_report (r : result) : option string :=
  match r with
  | Returned rate => Some ("Detected baudrate: " ++ rate)
  | _ => None
  end.

(** ** The minicom configuration writer *)

(** The files of the machine, and the paths that [open] was called on. *)
Record filesystem : Type := mkFilesystem {
  files : list (string * string);
  opened : list string
}.

Definition nl : string := String (ascii_of_nat 10) EmptyString.
Definition dquote : string := String (ascii_of_nat 34) EmptyString.
Definition hashes : string :=
  "########################################################################".

(** Lines 154-162. *)
Definition config_text (p rate : string) : string :=
  hashes ++ nl
  ++ "# Minicom configuration file - use " ++ dquote ++ "minicom -s" ++ dquote
  ++ " to change parameters." ++ nl
  ++ "pu port             " ++ p ++ nl
  ++ "pu baudrate         " ++ rate ++ nl
  ++ "pu bits             8" ++ nl
  ++ "pu parity           N" ++ nl
  ++ "pu stopbits         1" ++ nl
  ++ "pu rtscts           No" ++ nl
  ++ hashes ++ nl.

(** [if self.name:] holds for a name that was given and is not empty. *)
Definition name_given (nm : option string) : option string :=
  match nm with
  | Some EmptyString | None => None
  | Some s => Some s
  end.

(** The two places where the block of lines 166-167 can fail, each with
    the text of its exception: [open] itself, before the file is created
    or cut; or [write] and the close at the end of [with], after [open]
    has cut the file to nothing and [kept] characters of the text have
    reached it. *)
Inductive io_failure : Type :=
| OpenFails (msg : string)
| WriteFails (msg : string) (kept : nat).


(** The files once [path] holds [text]. *)
Definition store (path text : string) (fl : list (string * string))
  : list (string * string) :=
  (path, text) :: filter (fun f => negb (String.eqb (fst f) path)) fl.

(** [open(path, "w")], [write(text)] and the close: the call of [open] is
    recorded; the file holds the text when nothing fails, what reached it
    when the write fails, and is as before when [open] fails. *)
Definition write_file (path text : string) (refusal : option io_failure)
           (fs : filesystem) : option string * filesystem :=
  match refusal with
  | Some (OpenFails msg) =>
      (Some msg, mkFilesystem (files fs) (opened fs ++ [path]))
  | Some (WriteFails msg kept) =>
      (Some msg,
       mkFilesystem (store path (substring 0 kept text) (files fs))
                    (opened fs ++ [path]))
  | None =>
      (None, mkFilesystem (store path text (files fs)) (opened fs ++ [path]))
  end.

(** [minicomConfig]: the pair it returns, and the files afterwards. *)
Definition minicomConfig (d : detector) (refusal : option io_failure)
           (fs : filesystem) : outcome (bool * string) * filesystem :=
  match py_getitem BAUDRATES (index d) with
  | Raise e => (Raise e, fs)
  | Ok rate =>
      let config := config_text (port d) rate in
      match name_given (name d) with
      | Some nm =>
          match write_file ("/etc/minicom/minirc." ++ nm) config refusal fs
          with
          | (None, fs') => (Ok (true, config), fs')
          | (Some msg, fs') =>
              (Ok (false, "Error saving minicom config file: " ++ msg), fs')
          end
      | None => (Ok (false, "Configuration name not provided."), fs)
      end
  end.

(** ** The program entry *)
















(** ** Measures used in the statements *)

(** The keys that [handleKeypress] answers with [nextBaudrate(1)]. *)
Definition is_advance (c : string) : bool := contains c "uUAdD".

(** The key that sets the termination signal. *)
Definition is_ctlc (c : string) : bool :=
  String.eqb c (String (ascii_of_nat 3) EmptyString).

(** The keys pressed before the first Ctrl-C. *)
Fixpoint before_ctlc (ks : list string) : list string :=
  match ks with
  | [] => []
  | c :: ks' => if is_ctlc c then [] else c :: before_ctlc ks'
  end.

Definition count_advances (ks : list string) : Z :=
  Z.of_nat (List.length (filter is_advance ks)).

Fixpoint sum_steps (deltas : list Z) : Z :=
  match deltas with
  | [] => 0
  | u :: us => u + sum_steps us
  end.

(** [int(BAUDRATES[i])] *)
Definition rate_at (i : Z) : outcome Z :=
  match py_getitem BAUDRATES i with
  | Ok s => py_int s
  | Raise e => Raise e
  end.

(** The port operations of a sequence of rate changes. *)
Definition retunes (rs : list Z) : list serial_op :=
  flat_map (fun r => [Flush; SetBaudrate r; Flush]) rs.

(** A turn of auto-detect mode that starts with the timer unset and runs
    into a time-out: no byte, or a byte when the window has elapsed. *)
Definition times_out (tmo : Z) (ev : event) : bool :=
  match rx ev with
  | None => true
  | Some _ => Qle_bool (inject_Z tmo) (t_check ev - t_start ev)%Q
  end.

(** The port and the index of [d'] come from those of [d] by the rate
    changes [rs]: each one a flush, the new rate, a flush; after the last
    of them the port runs at the table entry under the index. *)
Definition retuned (rs : list Z) (d d' : detector) : Prop :=
  ser_ops (serial d') = (ser_ops (serial d) ++ retunes rs)%list /\
  ser_port (serial d') = ser_port (serial d) /\
  ser_timeout (serial d') = ser_timeout (serial d) /\
  baudrate (serial d') = last rs (baudrate (serial d)) /\
  (rs = [] -> index d' = index d) /\
  (rs <> [] -> rate_at (index d') = Ok (baudrate (serial d'))).

(** The code points of the literals on lines 108 and 110. *)
Definition punctuation_code (n : Z) : bool :=
  existsb (Z.eqb n) [46; 44; 58; 59; 63; 33].

Definition vowel_code (n : Z) : bool :=
  existsb (Z.eqb n) [97; 101; 105; 111; 117; 65; 69; 73; 79; 85].

(** The content of a file. *)
Fixpoint read_file (path : string) (fl : list (string * string))
  : option string :=
  match fl with
  | [] => None
  | (p, text) :: fl' => if String.eqb p path then Some text else read_file path fl'
  end.

(** The counts of the specification over the bytes read: a byte
    qualifies when its value lies in 32-126, and [tally p] counts the
    bytes that satisfy [p]. *)
Definition qualifying (b : ascii) : bool := (32 <=? ord b) && (ord b <=? 126).

Definition tally (p : ascii -> bool) (bs : list ascii) : Z :=
  Z.of_nat (List.length (filter p bs)).

(** Lines 105-115 applied to a sequence of objects in turn. *)
Fixpoint classify_each (d : detector) (xs : list pyval) (l : locals)
  : outcome locals :=
  match xs with
  | [] => Ok l
  | x :: xs' =>
      match classify d x l with
      | Ok l' => classify_each d xs' l'
      | Raise e => Raise e
      end
  end.

(** ** A sample stream *)

(** The stream of the specification's example: 30 bytes of
    "Hello, world! Testing 123." and a newline, repeated, all of them
    arriving inside one window. *)
Definition hello_bytes : list ascii :=
  list_ascii_of_string ("Hello, world! Testing 123." ++ nl ++ "Hel").

Definition hello_stream : list event :=
  map (fun b => mkEvent [] 100%Q (Some b) 101%Q) hello_bytes.

(** ** Invariants *)

(** The settings that the constructor fixes. *)
Definition same_settings (d d' : detector) : Prop :=
  autoDetect d' = autoDetect d /\ threshold d' = threshold d /\
  timeout d' = timeout d /\ name d' = name d /\ port d' = port d.

(** The cycler index points into the program's rate table. *)
Definition index_ok (d : detector) : Prop :=
  0 <= index d < nrates BAUDRATES.

(** No sub-tag counter exceeds [count], and none is negative. *)
Definition consistent (l : locals) : Prop :=
  0 <= count l /\
  0 <= whitespace l <= count l /\
  0 <= punctuation l <= count l /\
  0 <= vowels l <= count l.

(** All four counters are at zero. *)
Definition zeroed (l : locals) : Prop :=
  count l = 0 /\ whitespace l = 0 /\ punctuation l = 0 /\ vowels l = 0.

(** * Properties *)

(** ** The rate cycler *)

Lemma py_getitem_in_range :
  forall (A : Type) (l : list A) (i : Z),
    0 <= i < Z.of_nat (List.length l) ->
    exists a, py_getitem l i = Ok a /\ In a l.
Proof.
  intros A l i Hi. unfold py_getitem.
  assert (Hneg : (i <? 0) = false) by (apply Z.ltb_ge; lia).
  rewrite Hneg.
  assert (Hin : ((0 <=? i) && (i <? Z.of_nat (List.length l))) = true).
  { apply andb_true_intro. split; [apply Z.leb_le | apply Z.ltb_lt]; lia. }
  rewrite Hin.
  destruct (nth_error l (Z.to_nat i)) as [a|] eqn:Hnth.
  - exists a. split; [reflexivity | eapply nth_error_In; eassumption].
  - apply nth_error_None in Hnth. lia.
Qed.

Lemma numeral_py_int :
  forall s, numeral s = true -> exists r, py_int s = Ok r.
Proof.
  intros s H. unfold numeral in H.
  destruct (py_int s) as [r|e]; [exists r; reflexivity | discriminate].
Qed.

Section CyclerFacts.

Variable rates : list string.
Hypothesis rates_nonempty : 1 <= nrates rates.
Hypothesis rates_numerals : forallb numeral rates = true.

Lemma wrap_index_range : forall i, 0 <= wrap_index rates i < nrates rates.
Proof.
  intro i. unfold wrap_index.
  destruct (nrates rates <=? i) eqn:Hhi; [lia|].
  apply Z.leb_gt in Hhi.
  destruct (i <? 0) eqn:Hlo; [lia|].
  apply Z.ltb_ge in Hlo. lia.
Qed.

(** On a table of numerals the call returns normally; it stores the
    wrapped index, and leaves everything but the index and the port as
    it was. *)
Lemma nextBaudrate_returns :
  forall updn d,
  exists d',
    nextBaudrate rates updn d = (Ok tt, d') /\
    index d' = wrap_index rates (index d + updn) /\
    ctlc d' = ctlc d /\ thread d' = thread d /\
    autoDetect d' = autoDetect d /\ threshold d' = threshold d /\
    timeout d' = timeout d /\ name d' = name d /\ port d' = port d.
Proof.
  intros updn d. unfold nextBaudrate. cbn [index set_index set_serial].
  destruct (py_getitem_in_range _ rates (wrap_index rates (index d + updn)))
    as [s [Hs Hin]].
  { apply wrap_index_range. }
  rewrite Hs.
  destruct (numeral_py_int s) as [r Hr].
  { rewrite forallb_forall in rates_numerals. auto. }
  rewrite Hr. eexists. split; [reflexivity|]. cbn. tauto.
Qed.

Lemma nextBaudrates_in_range :
  forall updns d,
    0 <= index d < nrates rates ->
    exists d',
      nextBaudrates rates updns d = (Ok tt, d') /\
      0 <= index d' < nrates rates.
Proof.
  induction updns as [|u us IH]; intros d Hd.
  - exists d. split; [reflexivity | assumption].
  - cbn [nextBaudrates].
    destruct (nextBaudrate_returns u d) as [d1 [Hcall [Hidx _]]].
    rewrite Hcall.
    apply IH. rewrite Hidx. apply wrap_index_range.
Qed.

End CyclerFacts.

(** C4: on every candidate rate list with n >= 1 entries (each a numeral
    that [int] converts) and from every index in [0, n), [nextBaudrate(+1)]
    at index n-1 leaves the index at 0, [nextBaudrate(-1)] at index 0
    leaves it at n-1, every other call with a step of +1 or -1 leaves it
    at index + step, and the call returns without raising. *)
Theorem nextBaudrate_wraps :
  forall (rates : list string) (d : detector) (delta : Z),
    1 <= nrates rates ->
    forallb numeral rates = true ->
    0 <= index d < nrates rates ->
    delta = 1 \/ delta = -1 ->
    exists d',
      nextBaudrate rates delta d = (Ok tt, d') /\
      index d' =
        (if (index d =? nrates rates - 1) && (delta =? 1) then 0
         else if (index d =? 0) && (delta =? -1) then nrates rates - 1
         else index d + delta).
Proof.
  intros rates d delta Hn Hnum Hidx Hdelta.
  destruct (nextBaudrate_returns rates Hn Hnum delta d) as [d' [Hcall [Hi _]]].
  exists d'. split; [exact Hcall|].
  rewrite Hi. unfold wrap_index.
  destruct Hdelta as [-> | ->]; cbn [Z.eqb andb].
  - rewrite andb_true_r, andb_false_r.
    destruct (index d =? nrates rates - 1) eqn:Hlast.
    + apply Z.eqb_eq in Hlast.
      replace (nrates rates <=? index d + 1) with true
        by (symmetry; apply Z.leb_le; lia).
      reflexivity.
    + apply Z.eqb_neq in Hlast.
      replace (nrates rates <=? index d + 1) with false
        by (symmetry; apply Z.leb_gt; lia).
      replace (index d + 1 <? 0) with false
        by (symmetry; apply Z.ltb_ge; lia).
      reflexivity.
  - rewrite andb_true_r, andb_false_r.
    replace (nrates rates <=? index d + -1) with false
      by (symmetry; apply Z.leb_gt; lia).
    destruct (index d =? 0) eqn:Hfirst.
    + apply Z.eqb_eq in Hfirst.
      replace (index d + -1 <? 0) with true
        by (symmetry; apply Z.ltb_lt; lia).
      reflexivity.
    + apply Z.eqb_neq in Hfirst.
      replace (index d + -1 <? 0) with false
        by (symmetry; apply Z.ltb_ge; lia).
      reflexivity.
Qed.

Lemma BAUDRATES_length : nrates BAUDRATES = 45.
Proof. reflexivity. Qed.

Lemma BAUDRATES_numerals : forallb numeral BAUDRATES = true.
Proof. reflexivity. Qed.

Lemma nextBaudrate_wraps_witness :
  exists d',
    nextBaudrate BAUDRATES 1
      (set_index (BaudrateDetector "/dev/ttyUSB0" 25 5 None true true) 44)
    = (Ok tt, d') /\ index d' = 0.
Proof.
  apply (nextBaudrate_wraps BAUDRATES
           (set_index (BaudrateDetector "/dev/ttyUSB0" 25 5 None true true) 44)
           1).
  - rewrite BAUDRATES_length. lia.
  - reflexivity.
  - rewrite BAUDRATES_length. cbn. lia.
  - left. reflexivity.
Defined.

(** C8: the cycler index starts at 0 and, after any sequence of
    [nextBaudrate(+1)] and [nextBaudrate(-1)] calls on a candidate rate
    list with at least one entry (each a numeral), lies in
    [0, len(rates)); every call of the sequence returns. *)
Theorem index_stays_in_range :
  forall (rates : list string) (deltas : list Z) (d : detector),
    1 <= nrates rates ->
    forallb numeral rates = true ->
    index d = 0 ->
    Forall (fun delta => delta = 1 \/ delta = -1) deltas ->
    exists d',
      nextBaudrates rates deltas d = (Ok tt, d') /\
      0 <= index d' < nrates rates.
Proof.
  intros rates deltas d Hn Hnum H0 _.
  apply nextBaudrates_in_range; try assumption. lia.
Qed.

Lemma index_stays_in_range_witness :
  exists d',
    nextBaudrates BAUDRATES [-1; -1; 1; 1; 1]
      (BaudrateDetector "/dev/ttyUSB0" 25 5 None true true) = (Ok tt, d') /\
    0 <= index d' < nrates BAUDRATES.
Proof.
  apply (index_stays_in_range BAUDRATES [-1; -1; 1; 1; 1]
           (BaudrateDetector "/dev/ttyUSB0" 25 5 None true true)).
  - rewrite BAUDRATES_length. lia.
  - reflexivity.
  - reflexivity.
  - repeat first
      [ apply Forall_nil
      | apply Forall_cons;
        [ (left; reflexivity) || (right; reflexivity) | ] ].
Defined.

(** ** The byte classifier *)

(** Text from [chr] is in [validCharacters] exactly for the printable
    ASCII code points. *)
Lemma valid_text_printable :
  forall c : ascii,
    py_in_list (Str (String c EmptyString)) validCharacters
    = (32 <=? ord c) && (ord c <=? 126).
Proof.
  intro c.
  destruct c as [[] [] [] [] [] [] [] []]; vm_compute; reflexivity.
Qed.

Lemma valid_text_iff :
  forall c : ascii,
    py_in_list (Str (String c EmptyString)) validCharacters = true
    <-> 32 <= ord c <= 126.
Proof.
  intro c. rewrite valid_text_printable, andb_true_iff, Z.leb_le, Z.leb_le.
  tauto.
Qed.

(** Binary data equals none of the [str] objects that [chr] builds. *)
Lemma bytes_not_in_chr_list :
  forall (b : string) (codes : list nat),
    py_in_list (Bytes b) (map chr codes) = false.
Proof.
  intros b codes. unfold py_in_list.
  induction codes as [|i codes IH]; [reflexivity|].
  cbn [map existsb]. rewrite IH. reflexivity.
Qed.

Lemma bytes_not_valid :
  forall b : string, py_in_list (Bytes b) validCharacters = false.
Proof.
  intro b. unfold validCharacters, _generateCharList.
  apply bytes_not_in_chr_list.
Qed.

Lemma subtag_text_returns :
  forall (s : string) (l : locals),
  exists l',
    subtag (Str s) l = Ok l' /\
    count l' = count l /\ clearCounters l' = clearCounters l /\
    startTime l' = startTime l /\ timedOut l' = timedOut l.
Proof.
  intros s l. unfold subtag.
  destruct (py_isspace (Str s)).
  - eexists; split; [reflexivity | cbn; tauto].
  - cbn [py_in_str].
    destruct (contains s ".,:;?!").
    + eexists; split; [reflexivity | cbn; tauto].
    + destruct (contains s "aeiouAEIOU").
      * eexists; split; [reflexivity | cbn; tauto].
      * eexists; split; [reflexivity | tauto].
Qed.

(** What lines 105-113 do when the loop is handed text: in auto-detect
    mode a printable character adds one to [count]. *)
Lemma classify_text_counts :
  forall (d : detector) (c : ascii) (l : locals),
    autoDetect d = true ->
    32 <= ord c <= 126 ->
    exists l',
      classify d (Str (String c EmptyString)) l = Ok l' /\
      count l' = count l + 1 /\ clearCounters l' = clearCounters l.
Proof.
  intros d c l Hauto Hc. unfold classify.
  apply valid_text_iff in Hc. rewrite Hauto, Hc. cbn [andb].
  destruct (subtag_text_returns (String c EmptyString) l)
    as [l' [Hs [Hcount [Hclear _]]]].
  rewrite Hs. eexists; split; [reflexivity|]. cbn. rewrite Hcount, Hclear.
  tauto.
Qed.

(** ... and the echo on line 117 then rejects the text. *)
Lemma echo_rejects_text : forall s, echo (Str s) = Raise TypeError.
Proof. reflexivity. Qed.

(** C2 (the code at the failing input, and at every other byte): whatever
    byte [serial.read(1)] delivers, in the printable range 32-126 or not,
    and whatever the mode, the membership test of line 105 is false, no
    counter moves and the counters are marked for reset; the byte 97
    (letter a) in auto-detect mode is one such case. *)
Theorem received_byte_never_counted :
  forall (d : detector) (l : locals) (b : ascii),
    py_in_list (serial_read (Some b)) validCharacters = false /\
    classify d (serial_read (Some b)) l = Ok (set_clearCounters l true) /\
    (let d97 := BaudrateDetector "/dev/ttyUSB0" 25 5 None true true in
     let b97 := ascii_of_nat 97 in
     32 <= ord b97 <= 126 /\ autoDetect d97 = true /\
     classify d97 (serial_read (Some b97)) locals0
     = Ok (mkLocals 0 0 0 0 0%Q false true)).
Proof.
  intros d l b. cbn [serial_read].
  split; [apply bytes_not_valid|].
  split.
  - unfold classify. rewrite bytes_not_valid, andb_false_r. reflexivity.
  - cbn zeta. split; [vm_compute; split; discriminate|].
    split; reflexivity.
Qed.

(** C7 (counterexample): in manual mode the printable byte 97 adds nothing
    to [count] and marks the counters for reset; the same holds when the
    loop is handed the character as text, so it is the mode test of
    line 105 that decides. *)
Lemma manual_mode_printable_byte_not_counted :
  let d := BaudrateDetector "/dev/ttyUSB0" 25 5 None false true in
  let b := ascii_of_nat 97 in
  32 <= ord b <= 126 /\
  ~ (exists l',
       classify d (serial_read (Some b)) locals0 = Ok l' /\
       count l' = count locals0 + 1) /\
  classify d (serial_read (Some b)) locals0
  = Ok (set_clearCounters locals0 true) /\
  classify d (Str (String b EmptyString)) locals0
  = Ok (set_clearCounters locals0 true).
Proof.
  cbn zeta. split; [vm_compute; split; discriminate|].
  split; [|split; reflexivity].
  intros [l' [Hc Hcount]].
  vm_compute in Hc. injection Hc as <-. discriminate Hcount.
Qed.

(** C7 (amended): a byte that was read is counted in no case when
    auto-detect is off, and in no case when its value lies outside 32-126:
    in manual mode every byte, printable or not, leaves the four counters
    as they are and marks them for reset, and in either mode so does a
    byte outside the printable range. *)
Theorem classify_marks_reset :
  forall (d : detector) (b : ascii) (l : locals),
    autoDetect d = false \/ ~ (32 <= ord b <= 126) ->
    classify d (serial_read (Some b)) l = Ok (set_clearCounters l true) /\
    count (set_clearCounters l true) = count l /\
    whitespace (set_clearCounters l true) = whitespace l /\
    punctuation (set_clearCounters l true) = punctuation l /\
    vowels (set_clearCounters l true) = vowels l /\
    clearCounters (set_clearCounters l true) = true.
Proof.
  intros d b l H. split; [|cbn; tauto].
  unfold classify. destruct H as [Hmanual | Hrange].
  - rewrite Hmanual. reflexivity.
  - cbn [serial_read]. rewrite bytes_not_valid, andb_false_r. reflexivity.
Qed.

Lemma classify_marks_reset_witness :
  classify (BaudrateDetector "/dev/ttyUSB0" 25 5 None false true)
           (serial_read (Some (ascii_of_nat 97))) locals0
  = Ok (set_clearCounters locals0 true) /\
  count (set_clearCounters locals0 true) = count locals0 /\
  whitespace (set_clearCounters locals0 true) = whitespace locals0 /\
  punctuation (set_clearCounters locals0 true) = punctuation locals0 /\
  vowels (set_clearCounters locals0 true) = vowels locals0 /\
  clearCounters (set_clearCounters locals0 true) = true.
Proof.
  apply (classify_marks_reset
           (BaudrateDetector "/dev/ttyUSB0" 25 5 None false true)
           (ascii_of_nat 97) locals0).
  left. reflexivity.
Defined.

(** ** One turn of the loop *)

Lemma classify_bytes :
  forall (d : detector) (b : string) (l : locals),
    classify d (Bytes b) l = Ok (set_clearCounters l true).
Proof.
  intros d b l. unfold classify.
  rewrite bytes_not_valid, andb_false_r. reflexivity.
Qed.

Lemma nextBaudrate_BAUDRATES :
  forall updn d,
  exists d',
    nextBaudrate BAUDRATES updn d = (Ok tt, d') /\
    index d' = wrap_index BAUDRATES (index d + updn) /\
    index_ok d' /\ ctlc d' = ctlc d /\ thread d' = thread d /\
    same_settings d d'.
Proof.
  intros updn d.
  assert (Hn : 1 <= nrates BAUDRATES) by (rewrite BAUDRATES_length; lia).
  destruct (nextBaudrate_returns BAUDRATES Hn BAUDRATES_numerals updn d)
    as [d' [Hcall [Hi [Hc [Ht Hs]]]]].
  exists d'. unfold index_ok, same_settings. rewrite Hi.
  repeat split; try tauto; apply wrap_index_range; exact Hn.
Qed.

Ltac keeps :=
  unfold same_settings, index_ok in *;
  cbn [index ctlc thread autoDetect threshold timeout name port
       set_thread set_ctlc set_index set_serial] in *;
  repeat match goal with H : _ /\ _ |- _ => destruct H end;
  repeat split; intros; try discriminate; try congruence; try tauto;
  try lia; try (left; reflexivity); try (right; reflexivity).

Lemma handleKeypress_keeps :
  forall ks d,
    index_ok d ->
    index_ok (handleKeypress ks d) /\
    same_settings d (handleKeypress ks d) /\
    (ctlc d = true -> ctlc (handleKeypress ks d) = true).
Proof.
  induction ks as [|c ks IH]; intros d Hd.
  - cbn [handleKeypress]. destruct (ctlc d) eqn:Hc; keeps.
  - cbn [handleKeypress]. destruct (ctlc d) eqn:Hc; [keeps|].
    destruct (contains c "uUAdD").
    + destruct (nextBaudrate_BAUDRATES 1 d)
        as [d1 [Hcall [_ [Hi [_ [_ Hs]]]]]].
      rewrite Hcall. destruct (IH d1 Hi) as [Hi' [Hs' _]]. keeps.
    + destruct (String.eqb c (String (ascii_of_nat 3) EmptyString)).
      * destruct (IH (set_ctlc d true) Hd) as [Hi' [Hs' _]]. keeps.
      * destruct (IH d Hd) as [Hi' [Hs' _]]. keeps.
Qed.

Lemma keypresses_keeps :
  forall ks d,
    index_ok d ->
    index_ok (keypresses ks d) /\
    same_settings d (keypresses ks d) /\
    (ctlc d = true -> ctlc (keypresses ks d) = true).
Proof.
  intros ks d Hd. unfold keypresses.
  destruct (thread d); [keeps | | keeps].
  apply handleKeypress_keeps; assumption.
Qed.

(** What the port delivers is binary data, so lines 102-124 never raise. *)
Lemma receive_cases :
  forall ev l d,
    receive ev l d =
    match rx ev with
    | None => Ok (false, set_timedOut l true)
    | Some _ =>
        let l1 := set_clearCounters l true in
        if success_condition d l1 then Ok (true, l1)
        else if window_elapsed d (t_check ev) l1
             then Ok (false, set_timedOut l1 true)
             else Ok (false, l1)
    end.
Proof.
  intros ev l d. unfold receive.
  destruct (rx ev) as [b|]; cbn [serial_read py_truthy]; [|reflexivity].
  rewrite classify_bytes. reflexivity.
Qed.

Lemma rateChange_cases :
  forall l d,
    (timedOut l && autoDetect d = false /\ rateChange l d = (Ok tt, l, d))
    \/
    (timedOut l && autoDetect d = true /\
     exists d',
       nextBaudrate BAUDRATES (-1) d = (Ok tt, d') /\
       rateChange l d
       = (Ok tt,
          set_timedOut (set_clearCounters (set_startTime l 0%Q) true) false,
          d') /\
       index d' = wrap_index BAUDRATES (index d + -1) /\
       index_ok d' /\ ctlc d' = ctlc d /\ thread d' = thread d /\
       same_settings d d').
Proof.
  intros l d. unfold rateChange.
  destruct (timedOut l && autoDetect d).
  - right. split; [reflexivity|].
    destruct (nextBaudrate_BAUDRATES (-1) d) as [d' [Hcall H]].
    exists d'. rewrite Hcall. tauto.
  - left. split; reflexivity.
Qed.

(** A turn of the loop never raises; it leaves the index in range, and
    touches neither the termination signal nor the settings. *)
Lemma body_keeps :
  forall ev l d,
    index_ok d ->
    exists f l' d',
      body ev l d = (f, l', d') /\
      (forall e, f <> Raised e) /\
      index_ok d' /\ ctlc d' = ctlc d /\ same_settings d d' /\
      (f = Next -> ctlc d = false) /\
      (ctlc d = true -> f = BreakCtlc \/ f = BreakSuccess).
Proof.
  intros ev l d Hd. unfold body. rewrite receive_cases.
  assert (Hsame : same_settings d d) by (unfold same_settings; tauto).
  assert (Hbreak :
    forall l1,
    exists f l' d',
      (match rateChange l1 d with
       | (Raise e, l2, d2) => (Raised e, l2, d2)
       | (Ok _, l2, d2) =>
           if ctlc d2 then (BreakCtlc, resetCounters l2, d2)
           else (Next, resetCounters l2, d2)
       end) = (f, l', d') /\
      (forall e, f <> Raised e) /\
      index_ok d' /\ ctlc d' = ctlc d /\ same_settings d d' /\
      (f = Next -> ctlc d = false) /\
      (ctlc d = true -> f = BreakCtlc \/ f = BreakSuccess)).
  { intro l1.
    destruct (rateChange_cases l1 d)
      as [[_ Hrc] | [_ [d' [_ [Hrc [_ [Hi [Hc [_ Hs]]]]]]]]];
      rewrite Hrc.
    - destruct (ctlc d) eqn:Hctl; do 3 eexists;
        (split; [reflexivity|]); keeps.
    - destruct (ctlc d') eqn:Hctl; do 3 eexists;
        (split; [reflexivity|]); keeps. }
  destruct (rx ev) as [b|].
  - cbn zeta.
    destruct (success_condition d (set_clearCounters (armTimer ev l) true)).
    + do 3 eexists. split; [reflexivity|]. keeps.
    + destruct (window_elapsed d (t_check ev)
                  (set_clearCounters (armTimer ev l) true)); apply Hbreak.
  - apply Hbreak.
Qed.

(** ** Leaving the loop *)

Lemma body_success_iff :
  forall ev l d l' d',
    body ev l d = (BreakSuccess, l', d') <->
    exists b,
      rx ev = Some b /\
      classify d (serial_read (Some b)) (armTimer ev l) = Ok l' /\
      success_condition d l' = true /\ d' = d.
Proof.
  intros ev l d l' d'. unfold body. rewrite receive_cases.
  assert (Hrest :
    forall l1,
      (match rateChange l1 d with
       | (Raise e, l2, d2) => (Raised e, l2, d2)
       | (Ok _, l2, d2) =>
           if ctlc d2 then (BreakCtlc, resetCounters l2, d2)
           else (Next, resetCounters l2, d2)
       end) <> (BreakSuccess, l', d')).
  { intro l1.
    destruct (rateChange_cases l1 d) as [[_ Hrc] | [_ [d2 [_ [Hrc _]]]]];
      rewrite Hrc.
    - destruct (ctlc d); discriminate.
    - destruct (ctlc d2); discriminate. }
  split.
  - destruct (rx ev) as [b|].
    + cbn zeta.
      destruct (success_condition d (set_clearCounters (armTimer ev l) true))
        eqn:Hs.
      * intro H. injection H as <- <-. exists b.
        cbn [serial_read]. rewrite classify_bytes. auto.
      * destruct (window_elapsed d (t_check ev)
                    (set_clearCounters (armTimer ev l) true));
          intro H; apply Hrest in H; contradiction.
    + intro H. apply Hrest in H. contradiction.
  - intros [b [Hrx [Hcl [Hs ->]]]]. rewrite Hrx. cbn zeta.
    cbn [serial_read] in Hcl. rewrite classify_bytes in Hcl.
    injection Hcl as <-. rewrite Hs. reflexivity.
Qed.

Lemma loop_app :
  forall pre rest l d l1 d1,
    loop pre l d = (Next, l1, d1) ->
    loop (pre ++ rest)%list l d = loop rest l1 d1.
Proof.
  induction pre as [|ev pre IH]; intros rest l d l1 d1 H.
  - cbn in H. injection H as <- <-. reflexivity.
  - cbn [loop app] in *.
    destruct (iteration ev l d) as [[f l2] d2].
    destruct f; try discriminate. apply IH. exact H.
Qed.

Lemma iteration_keeps :
  forall ev l d,
    index_ok d ->
    exists f l' d',
      iteration ev l d = (f, l', d') /\
      (forall e, f <> Raised e) /\ index_ok d' /\ same_settings d d'.
Proof.
  intros ev l d Hd. unfold iteration.
  destruct (keypresses_keeps (keys ev) d Hd) as [Hi [Hs _]].
  destruct (body_keeps ev l _ Hi) as [f [l' [d' [Hb [Hne [Hi' [_ [Hs' _]]]]]]]].
  exists f, l', d'. split; [exact Hb|]. split; [exact Hne|].
  split; [exact Hi'|]. keeps.
Qed.

(** The loop never raises and keeps the index in range. *)
Lemma loop_keeps :
  forall evs l d f l' d',
    index_ok d ->
    loop evs l d = (f, l', d') ->
    (forall e, f <> Raised e) /\ index_ok d' /\ same_settings d d'.
Proof.
  induction evs as [|ev evs IH]; intros l d f l' d' Hd H.
  - cbn in H. injection H as <- <- <-. keeps.
  - cbn [loop] in H.
    destruct (iteration_keeps ev l d Hd) as [f1 [l1 [d1 [Hit [Hne [Hi Hs]]]]]].
    rewrite Hit in H.
    destruct f1.
    + destruct (IH _ _ _ _ _ Hi H) as [Hne' [Hi' Hs']].
      split; [exact Hne'|]. split; [exact Hi'|]. keeps.
    + injection H as <- <- <-. split; [discriminate|]. split; assumption.
    + injection H as <- <- <-. split; [discriminate|]. split; assumption.
    + exfalso. apply (Hne e). reflexivity.
Qed.

Lemma loop_success_split :
  forall evs l d l' d',
    loop evs l d = (BreakSuccess, l', d') ->
    exists pre ev post l1 d1,
      evs = (pre ++ ev :: post)%list /\
      loop pre l d = (Next, l1, d1) /\
      iteration ev l1 d1 = (BreakSuccess, l', d').
Proof.
  induction evs as [|ev evs IH]; intros l d l' d' H.
  - discriminate H.
  - cbn [loop] in H.
    destruct (iteration ev l d) as [[f l2] d2] eqn:Hit.
    destruct f; try discriminate.
    + destruct (IH _ _ _ _ H) as [pre [ev' [post [l1 [d1 [He [Hp Hi]]]]]]].
      exists (ev :: pre), ev', post, l1, d1.
      split; [rewrite He; reflexivity|].
      split; [|exact Hi].
      cbn [loop]. rewrite Hit. exact Hp.
    + exists [], ev, evs, l, d.
      split; [reflexivity|]. split; [reflexivity|].
      rewrite Hit. exact H.
Qed.

(** Lines 119-120 and 142 on the loop's variables, from any values of
    them: a run ends at line 120 exactly when, in some turn reached with
    the loop still running, a byte is read and right after its
    classification the variables [count], [whitespace], [punctuation]
    and [vowels] pass the test of line 119; the value then returned on
    line 142 is the entry of [BAUDRATES] at the index current in that
    turn.  (How the variables follow the bytes read is another matter:
    see [loop_from_start_counts_nothing] below.) *)
Lemma loop_success_iff :
  forall evs l d l' d',
    index_ok d ->
    (loop evs l d = (BreakSuccess, l', d') <->
     exists pre ev post l1 d1 b,
       evs = (pre ++ ev :: post)%list /\
       loop pre l d = (Next, l1, d1) /\
       rx ev = Some b /\
       d' = keypresses (keys ev) d1 /\
       classify d' (serial_read (Some b)) (armTimer ev l1) = Ok l' /\
       (threshold d' <= count l' /\ 0 < whitespace l' /\
        0 < punctuation l' /\ 0 < vowels l'))
    /\
    (loop evs l d = (BreakSuccess, l', d') ->
     index_ok d' /\
     exists r,
       loop_return BreakSuccess d' = Returned r /\
       nth_error BAUDRATES (Z.to_nat (index d')) = Some r).
Proof.
  intros evs l d l' d' Hd.
  assert (Hcond :
    forall d0 l0,
      success_condition d0 l0 = true <->
      threshold d0 <= count l0 /\ 0 < whitespace l0 /\
      0 < punctuation l0 /\ 0 < vowels l0).
  { intros d0 l0. unfold success_condition.
    rewrite !andb_true_iff, Z.leb_le, !Z.ltb_lt. tauto. }
  split; [split|].
  - intro H.
    destruct (loop_success_split _ _ _ _ _ H)
      as [pre [ev [post [l1 [d1 [He [Hp Hi]]]]]]].
    unfold iteration in Hi. apply body_success_iff in Hi.
    destruct Hi as [b [Hrx [Hcl [Hs Hd']]]].
    exists pre, ev, post, l1, d1, b. subst d'.
    split; [exact He|]. split; [exact Hp|]. split; [exact Hrx|].
    split; [reflexivity|]. split; [exact Hcl|]. apply Hcond. exact Hs.
  - intros [pre [ev [post [l1 [d1 [b [He [Hp [Hrx [Hd' [Hcl Hs]]]]]]]]]]].
    subst evs. rewrite (loop_app _ _ _ _ _ _ Hp). cbn [loop].
    assert (Hi : iteration ev l1 d1 = (BreakSuccess, l', d')).
    { unfold iteration. apply body_success_iff. exists b.
      rewrite <- Hd'. split; [exact Hrx|]. split; [exact Hcl|].
      split; [apply Hcond; exact Hs | reflexivity]. }
    rewrite Hi. reflexivity.
  - intro H. destruct (loop_keeps _ _ _ _ _ _ Hd H) as [_ [Hi _]].
    split; [exact Hi|].
    destruct (py_getitem_in_range _ BAUDRATES (index d') Hi) as [r [Hr _]].
    exists r. cbn [loop_return]. rewrite Hr. split; [reflexivity|].
    unfold py_getitem in Hr.
    destruct Hi as [Hlo Hhi]. unfold nrates in Hhi.
    replace (index d' <? 0) with false in Hr
      by (symmetry; apply Z.ltb_ge; lia).
    replace ((0 <=? index d') && (index d' <? Z.of_nat (List.length BAUDRATES)))
      with true in Hr
      by (symmetry; apply andb_true_intro;
          split; [apply Z.leb_le | apply Z.ltb_lt]; lia).
    destruct (nth_error BAUDRATES (Z.to_nat (index d'))); congruence.
Qed.

(** ** Runs from the initial state *)

Lemma zeroed_no_success :
  forall d l, zeroed l -> success_condition d l = false.
Proof.
  intros d l [_ [Hw _]]. unfold success_condition. rewrite Hw.
  cbn [Z.ltb Z.compare]. rewrite andb_false_r. reflexivity.
Qed.

Ltac zeroes :=
  unfold zeroed, armTimer, resetCounters, set_counters, set_clearCounters,
    set_timedOut, set_startTime in *;
  repeat match goal with
         | |- context [if ?b then _ else _] => destruct b
         end;
  cbn [count whitespace punctuation vowels clearCounters] in *;
  tauto.

(** The port delivers binary data, which line 105 never counts: a turn
    that starts with the counters at zero ends with them at zero and does
    not leave through line 120. *)
Lemma body_zeroed :
  forall ev l d f l' d',
    zeroed l -> body ev l d = (f, l', d') -> f <> BreakSuccess /\ zeroed l'.
Proof.
  intros ev l d f l' d' Hz. unfold body. rewrite receive_cases.
  assert (Hs : success_condition d (set_clearCounters (armTimer ev l) true)
               = false).
  { apply zeroed_no_success. zeroes. }
  assert (Hrest :
    forall l1, zeroed l1 ->
      (match rateChange l1 d with
       | (Raise e, l2, d2) => (Raised e, l2, d2)
       | (Ok _, l2, d2) =>
           if ctlc d2 then (BreakCtlc, resetCounters l2, d2)
           else (Next, resetCounters l2, d2)
       end) = (f, l', d') ->
      f <> BreakSuccess /\ zeroed l').
  { intros l1 Hz1. unfold rateChange.
    destruct (timedOut l1 && autoDetect d).
    - destruct (nextBaudrate BAUDRATES (-1) d) as [[u|e] d2].
      + destruct (ctlc d2); intro H; injection H as <- <- <-;
          (split; [discriminate | zeroes]).
      + intro H; injection H as <- <- <-. split; [discriminate | zeroes].
    - destruct (ctlc d); intro H; injection H as <- <- <-;
        (split; [discriminate | zeroes]). }
  destruct (rx ev) as [b|].
  - cbn zeta. rewrite Hs.
    destruct (window_elapsed d (t_check ev)
                (set_clearCounters (armTimer ev l) true));
      apply Hrest; zeroes.
  - apply Hrest. zeroes.
Qed.

(** [detectBaudrate] starts from [locals0]: however long the stream of
    bytes and whatever its content, the counters stay at zero and the loop
    does not end in success. *)
Lemma loop_from_start_counts_nothing :
  forall evs l d f l' d',
    zeroed l -> loop evs l d = (f, l', d') -> f <> BreakSuccess /\ zeroed l'.
Proof.
  induction evs as [|ev evs IH]; intros l d f l' d' Hz H.
  - cbn in H. injection H as <- <- <-. split; [discriminate | exact Hz].
  - cbn [loop] in H. unfold iteration in H.
    destruct (body ev l (keypresses (keys ev) d)) as [[f1 l1] d1] eqn:Hb.
    destruct (body_zeroed _ _ _ _ _ _ Hz Hb) as [Hne Hz1].
    destruct f1; try (injection H as <- <- <-; split; assumption).
    eapply IH; eassumption.
Qed.

(** In auto-detect mode nothing sets the termination signal (the
    key-press thread is not started) and no byte is counted, so the loop
    goes round for as long as it is fed: the call does not return. *)
Lemma auto_turn_goes_on :
  forall ev l d,
    autoDetect d = true -> ctlc d = false -> thread d = NotStarted ->
    index_ok d -> zeroed l ->
    exists l' d',
      iteration ev l d = (Next, l', d') /\
      autoDetect d' = true /\ ctlc d' = false /\ thread d' = NotStarted /\
      index_ok d' /\ zeroed l'.
Proof.
  intros ev l d Hauto Hctl Hth Hi Hz.
  unfold iteration, keypresses. rewrite Hth.
  destruct (body ev l d) as [[f l'] d'] eqn:Hb.
  destruct (body_zeroed _ _ _ _ _ _ Hz Hb) as [Hns Hz'].
  destruct (body_keeps ev l d Hi)
    as [f1 [l1 [d1 [Hb1 [Hne [Hi1 [Hc1 [Hs1 [_ _]]]]]]]]].
  rewrite Hb in Hb1. injection Hb1 as <- <- <-.
  assert (Hth' : thread d' = NotStarted).
  { revert Hb. unfold body. rewrite receive_cases.
    assert (Hrest :
      forall l1,
        (match rateChange l1 d with
         | (Raise e, l2, d2) => (Raised e, l2, d2)
         | (Ok _, l2, d2) =>
             if ctlc d2 then (BreakCtlc, resetCounters l2, d2)
             else (Next, resetCounters l2, d2)
         end) = (f, l', d') -> thread d' = NotStarted).
    { intro l1.
      destruct (rateChange_cases l1 d)
        as [[_ Hrc] | [_ [d2 [_ [Hrc [_ [_ [_ [Ht2 _]]]]]]]]]; rewrite Hrc.
      - destruct (ctlc d); intro H; injection H as <- <- <-; exact Hth.
      - destruct (ctlc d2); intro H; injection H as <- <- <-; congruence. }
    destruct (rx ev) as [b|]; [|apply Hrest].
    cbn zeta.
    destruct (success_condition d (set_clearCounters (armTimer ev l) true)).
    - intro H. injection H as <- <- <-. exact Hth.
    - destruct (window_elapsed d (t_check ev)
                  (set_clearCounters (armTimer ev l) true)); apply Hrest. }
  assert (Hc' : ctlc d' = false) by congruence.
  destruct f.
  - exists l', d'. destruct Hs1 as [Ha _].
    split; [reflexivity|]. split; [congruence|].
    split; [exact Hc'|]. split; [exact Hth'|]. split; assumption.
  - exfalso. apply Hns. reflexivity.
  - exfalso. revert Hb. unfold body. rewrite receive_cases.
    assert (Hrest :
      forall l1,
        (match rateChange l1 d with
         | (Raise e, l2, d2) => (Raised e, l2, d2)
         | (Ok _, l2, d2) =>
             if ctlc d2 then (BreakCtlc, resetCounters l2, d2)
             else (Next, resetCounters l2, d2)
         end) <> (BreakCtlc, l', d')).
    { intro l1.
      destruct (rateChange_cases l1 d)
        as [[_ Hrc] | [_ [d2 [_ [Hrc [_ [_ [Hc2 _]]]]]]]]; rewrite Hrc.
      - rewrite Hctl. discriminate.
      - rewrite Hc2, Hctl. discriminate. }
    destruct (rx ev) as [b|]; [|apply Hrest].
    cbn zeta.
    destruct (success_condition d (set_clearCounters (armTimer ev l) true));
      [discriminate|].
    destruct (window_elapsed d (t_check ev)
                (set_clearCounters (armTimer ev l) true)); apply Hrest.
  - exfalso. apply (Hne e). reflexivity.
Qed.

Lemma auto_detect_never_returns :
  forall evs l d,
    autoDetect d = true -> ctlc d = false -> thread d = NotStarted ->
    index_ok d -> zeroed l ->
    exists l' d', loop evs l d = (Next, l', d').
Proof.
  induction evs as [|ev evs IH]; intros l d Hauto Hctl Hth Hi Hz.
  - exists l, d. reflexivity.
  - cbn [loop].
    destruct (auto_turn_goes_on ev l d Hauto Hctl Hth Hi Hz)
      as [l1 [d1 [Hit [Ha [Hc [Ht [Hi1 Hz1]]]]]]].
    rewrite Hit. apply IH; assumption.
Qed.

(** The stream of the specification's example with threshold 25: the
    loop is still turning after it. *)
Lemma hello_stream_not_detected :
  List.length hello_stream = 30%nat /\
  detectBaudrate (BaudrateDetector "/dev/ttyUSB0" 25 5 None true true)
                 hello_stream
  = (StillLooping, BaudrateDetector "/dev/ttyUSB0" 25 5 None true true).
Proof. split; reflexivity. Qed.

(** C1 (the code on the specification's example): auto-detect mode,
    threshold 25, time-out 5, and the 30 bytes of "Hello, world! Testing
    123." with its newline, repeated, all read inside one window.  Of the
    bytes read the four conditions of the claim hold together on the
    25th byte and not before: 25 bytes with a value in 32-126, among them
    spaces, punctuation marks and vowels; and lines 105-115, handed these
    25 characters as text, bring the loop's counters to pass the test of
    line 119.  The loop hands them the [bytes] objects that the port
    delivers: after the 25th byte its four counters are at zero and it
    turns on, after the 30th the call has not returned, and from the
    initial counters it leaves through line 120 on no stream at all. *)
Theorem qualifying_stream_not_detected :
  let d := BaudrateDetector "/dev/ttyUSB0" 25 5 None true true in
  let read25 := firstn 25 hello_bytes in
  (autoDetect d = true /\ threshold d = 25 /\
   List.length hello_bytes = 30%nat /\
   hello_stream
   = map (fun b => mkEvent [] 100%Q (Some b) 101%Q) hello_bytes) /\
  (threshold d <= tally qualifying read25 /\
   0 < tally (fun b => qualifying b && str_space b) read25 /\
   0 < tally (fun b => punctuation_code (ord b)) read25 /\
   0 < tally (fun b => vowel_code (ord b)) read25 /\
   tally qualifying (firstn 24 hello_bytes) < threshold d) /\
  (exists l,
     classify_each d (map (fun b => Str (String b EmptyString)) read25)
                   locals0 = Ok l /\
     success_condition d l = true) /\
  loop (firstn 25 hello_stream) locals0 (startThread d)
  = (Next, mkLocals 0 0 0 0 100%Q false false, d) /\
  detectBaudrate d hello_stream = (StillLooping, d) /\
  (forall d1 evs l' d', loop evs locals0 d1 <> (BreakSuccess, l', d')).
Proof.
  cbn zeta.
  split; [repeat split|].
  split; [repeat split; vm_compute; first [reflexivity | discriminate]|].
  split; [eexists; split; vm_compute; reflexivity|].
  split; [reflexivity|]. split; [reflexivity|].
  intros d1 evs l' d' H.
  assert (Hz0 : zeroed locals0) by (unfold zeroed; cbn; tauto).
  destruct (loop_from_start_counts_nothing _ _ _ _ _ _ Hz0 H) as [Hns _].
  apply Hns. reflexivity.
Qed.

(** ** Time-outs *)

Lemma current_rate :
  forall d,
    index_ok d ->
    exists r,
      py_getitem BAUDRATES (index d) = Ok r /\
      nth_error BAUDRATES (Z.to_nat (index d)) = Some r.
Proof.
  intros d Hi.
  destruct (py_getitem_in_range _ BAUDRATES (index d) Hi) as [r [Hr _]].
  exists r. split; [exact Hr|].
  unfold py_getitem in Hr.
  destruct Hi as [Hlo Hhi]. unfold nrates in Hhi.
  replace (index d <? 0) with false in Hr
    by (symmetry; apply Z.ltb_ge; lia).
  replace ((0 <=? index d) && (index d <? Z.of_nat (List.length BAUDRATES)))
    with true in Hr
    by (symmetry; apply andb_true_intro;
        split; [apply Z.leb_le | apply Z.ltb_lt]; lia).
  destruct (nth_error BAUDRATES (Z.to_nat (index d))); congruence.
Qed.

Lemma step_back_index :
  forall i,
    0 <= i < nrates BAUDRATES ->
    wrap_index BAUDRATES (i + -1)
    = (if i =? 0 then nrates BAUDRATES - 1 else i - 1).
Proof.
  intros i Hi. unfold wrap_index.
  replace (nrates BAUDRATES <=? i + -1) with false
    by (symmetry; apply Z.leb_gt; lia).
  destruct (i =? 0) eqn:H0.
  - apply Z.eqb_eq in H0.
    replace (i + -1 <? 0) with true by (symmetry; apply Z.ltb_lt; lia).
    reflexivity.
  - apply Z.eqb_neq in H0.
    replace (i + -1 <? 0) with false by (symmetry; apply Z.ltb_ge; lia).
    lia.
Qed.

(** The part of a turn after line 124, once [timedOut] is set in
    auto-detect mode. *)
Lemma timed_out_turn :
  forall l1 d,
    autoDetect d = true ->
    timedOut l1 = true ->
    exists d',
      nextBaudrate BAUDRATES (-1) d = (Ok tt, d') /\
      index d' = wrap_index BAUDRATES (index d + -1) /\
      (match rateChange l1 d with
       | (Raise e, l2, d2) => (Raised e, l2, d2)
       | (Ok _, l2, d2) =>
           if ctlc d2 then (BreakCtlc, resetCounters l2, d2)
           else (Next, resetCounters l2, d2)
       end)
      = (if ctlc d then BreakCtlc else Next,
         mkLocals 0 0 0 0 0%Q false false, d').
Proof.
  intros l1 d Hauto Hto.
  destruct (rateChange_cases l1 d)
    as [[Hc _] | [_ [d' [Hcall [Hrc [Hi [_ [Hctl _]]]]]]]].
  - rewrite Hauto, Hto in Hc. discriminate.
  - exists d'. split; [exact Hcall|]. split; [exact Hi|].
    rewrite Hrc, Hctl. destruct (ctlc d); reflexivity.
Qed.

(** A turn of auto-detect mode that sets [timedOut]: the read returns no
    byte, or a byte is read that does not complete the success test of
    line 119 while the window has elapsed. *)
Lemma timed_out_body :
  forall ev l d,
    autoDetect d = true ->
    index_ok d ->
    (rx ev = None \/
     exists b l1,
       rx ev = Some b /\
       classify d (serial_read (Some b)) (armTimer ev l) = Ok l1 /\
       success_condition d l1 = false /\
       window_elapsed d (t_check ev) l1 = true) ->
    exists f l' d',
      body ev l d = (f, l', d') /\
      (f = Next \/ f = BreakCtlc) /\
      startTime l' = 0%Q /\
      nextBaudrate BAUDRATES (-1) d = (Ok tt, d') /\
      index d' = (if index d =? 0 then nrates BAUDRATES - 1 else index d - 1) /\
      count l' = 0 /\ whitespace l' = 0 /\ punctuation l' = 0 /\ vowels l' = 0.
Proof.
  intros ev l d Hauto Hi Hcase.
  assert (Hfin :
    forall l1, timedOut l1 = true ->
    forall r,
      r = (match rateChange l1 d with
           | (Raise e, l2, d2) => (Raised e, l2, d2)
           | (Ok _, l2, d2) =>
               if ctlc d2 then (BreakCtlc, resetCounters l2, d2)
               else (Next, resetCounters l2, d2)
           end) ->
      exists f l' d',
        r = (f, l', d') /\
        (f = Next \/ f = BreakCtlc) /\
        startTime l' = 0%Q /\
        nextBaudrate BAUDRATES (-1) d = (Ok tt, d') /\
        index d' = (if index d =? 0 then nrates BAUDRATES - 1 else index d - 1) /\
        count l' = 0 /\ whitespace l' = 0 /\ punctuation l' = 0 /\
        vowels l' = 0).
  { intros l1 Hto r ->.
    destruct (timed_out_turn l1 d Hauto Hto) as [d' [Hcall [Hidx Heq]]].
    rewrite Heq. do 3 eexists. split; [reflexivity|].
    split; [destruct (ctlc d); auto|].
    split; [reflexivity|]. split; [exact Hcall|].
    split; [rewrite Hidx; apply step_back_index; exact Hi|].
    cbn. tauto. }
  unfold body. rewrite receive_cases.
  destruct Hcase as [Hnone | [b [l1 [Hsome [Hcl [Hs Hw]]]]]].
  - rewrite Hnone. eapply Hfin; [|reflexivity]. reflexivity.
  - rewrite Hsome. cbn zeta.
    cbn [serial_read] in Hcl. rewrite classify_bytes in Hcl.
    injection Hcl as <-. rewrite Hs, Hw.
    eapply Hfin; [|reflexivity]. reflexivity.
Qed.

(** C3: in auto-detect mode, from any values of the counters and of the
    timer and at any index of the rate table, a turn in which the read
    returns no byte, or in which the byte read does not end the loop on
    line 120 and the time elapsed since the timer was set has reached
    [timeout] (line 121 is the [elif] of the success test), ends with the
    timer unset ([startTime] = 0), with [nextBaudrate(-1)] applied once
    (the index one step back, 0 wrapping to the last entry) and with all
    four counters at zero. *)
Theorem timeout_turn_steps_back :
  forall ev l d,
    autoDetect d = true ->
    index_ok d ->
    (rx ev = None \/
     exists b l1,
       rx ev = Some b /\
       classify d (serial_read (Some b)) (armTimer ev l) = Ok l1 /\
       success_condition d l1 = false /\
       window_elapsed d (t_check ev) l1 = true) ->
    exists f l' d',
      body ev l d = (f, l', d') /\
      (f = Next \/ f = BreakCtlc) /\
      startTime l' = 0%Q /\
      nextBaudrate BAUDRATES (-1) d = (Ok tt, d') /\
      index d' = (if index d =? 0 then nrates BAUDRATES - 1 else index d - 1) /\
      count l' = 0 /\ whitespace l' = 0 /\ punctuation l' = 0 /\ vowels l' = 0.
Proof.
  intros ev l d Hauto Hi Hcase.
  apply timed_out_body; assumption.
Qed.

Lemma timeout_turn_steps_back_witness :
  let d := BaudrateDetector "/dev/ttyUSB0" 25 5 None true true in
  let ev := mkEvent [] 103%Q (Some (ascii_of_nat 255)) 106%Q in
  let l := mkLocals 7 2 1 3 100%Q false false in
  (autoDetect d = true /\ index_ok d /\
   classify d (serial_read (rx ev)) (armTimer ev l)
   = Ok (mkLocals 7 2 1 3 100%Q false true) /\
   success_condition d (mkLocals 7 2 1 3 100%Q false true) = false /\
   window_elapsed d (t_check ev) (mkLocals 7 2 1 3 100%Q false true) = true)
  /\
  exists f l' d',
    body ev l d = (f, l', d') /\
    (f = Next \/ f = BreakCtlc) /\
    startTime l' = 0%Q /\
    nextBaudrate BAUDRATES (-1) d = (Ok tt, d') /\
    index d' = (if index d =? 0 then nrates BAUDRATES - 1 else index d - 1) /\
    count l' = 0 /\ whitespace l' = 0 /\ punctuation l' = 0 /\ vowels l' = 0.
Proof.
  cbn zeta.
  assert (Hi : index_ok (BaudrateDetector "/dev/ttyUSB0" 25 5 None true true)).
  { unfold index_ok. rewrite BAUDRATES_length. cbn. lia. }
  split.
  - split; [reflexivity|]. split; [exact Hi|].
    split; [reflexivity|]. split; reflexivity.
  - apply (timeout_turn_steps_back
             (mkEvent [] 103%Q (Some (ascii_of_nat 255)) 106%Q)
             (mkLocals 7 2 1 3 100%Q false false)
             (BaudrateDetector "/dev/ttyUSB0" 25 5 None true true)).
    + reflexivity.
    + exact Hi.
    + right. exists (ascii_of_nat 255), (mkLocals 7 2 1 3 100%Q false true).
      split; [reflexivity|]. split; [reflexivity|]. split; reflexivity.
Defined.

(** On the runs that [detectBaudrate] makes the counters never leave
    zero, so the byte of a turn never ends the loop on line 120: there
    every turn with no byte, or with the window elapsed, is a turn of
    the kind above. *)
Lemma auto_timeout_on_runs :
  forall pre d0 ev l d,
    loop pre locals0 d0 = (Next, l, d) ->
    autoDetect d = true ->
    index_ok d ->
    rx ev = None \/ window_elapsed d (t_check ev) (armTimer ev l) = true ->
    exists f l' d',
      body ev l d = (f, l', d') /\
      (f = Next \/ f = BreakCtlc) /\
      startTime l' = 0%Q /\
      nextBaudrate BAUDRATES (-1) d = (Ok tt, d') /\
      index d' = (if index d =? 0 then nrates BAUDRATES - 1 else index d - 1) /\
      count l' = 0 /\ whitespace l' = 0 /\ punctuation l' = 0 /\ vowels l' = 0.
Proof.
  intros pre d0 ev l d Hrun Hauto Hi Hcase.
  assert (Hz0 : zeroed locals0) by (unfold zeroed; cbn; tauto).
  destruct (loop_from_start_counts_nothing _ _ _ _ _ _ Hz0 Hrun) as [_ Hz].
  apply timed_out_body; try assumption.
  destruct (rx ev) as [b|] eqn:Hrx; [|left; reflexivity].
  destruct Hcase as [Hnone | Hw]; [discriminate|].
  right. exists b, (set_clearCounters (armTimer ev l) true).
  split; [reflexivity|].
  split; [cbn [serial_read]; apply classify_bytes|].
  split; [|exact Hw].
  apply zeroed_no_success. zeroes.
Qed.

(** ** The termination signal *)

(** C5 (counterexample): in manual mode the operator presses Ctrl-C during
    the first turn; the loop leaves through line 140, the call returns
    "110", an entry of the rate table, which is also what line 142 yields
    after a success exit with the same index, and [main] prints it as the
    detected rate. *)
Lemma cancelled_run_returns_rate :
  let d := BaudrateDetector "/dev/ttyUSB0" 25 5 None false true in
  let ev := mkEvent [String (ascii_of_nat 3) EmptyString] 100%Q None 105%Q in
  exists l' d',
    loop [ev] locals0 (startThread d) = (BreakCtlc, l', d') /\
    detectBaudrate d [ev] = (Returned "110", d') /\
    In "110" BAUDRATES /\
    loop_return BreakCtlc d' = loop_return BreakSuccess d' /\
    main_report (fst (detectBaudrate d [ev]))
    = Some "Detected baudrate: 110".
Proof.
  cbn zeta. do 2 eexists.
  split; [reflexivity|]. split; [reflexivity|].
  split; [left; reflexivity|]. split; reflexivity.
Qed.

(** C5 (amended): when the termination signal is set, either before a turn
    or by a key pressed during it, that turn is the last one: the loop
    does not go round again.  The call then returns the entry of
    [BAUDRATES] at the current index, through the same line 142 as a
    success exit, so the returned value is a rate in both cases; the
    signal itself stays set. *)
Theorem ctlc_ends_loop_with_current_rate :
  forall ev l d,
    index_ok d ->
    ctlc d = true \/ ctlc (keypresses (keys ev) d) = true ->
    exists f l' d' r,
      iteration ev l d = (f, l', d') /\
      (f = BreakCtlc \/ f = BreakSuccess) /\
      loop (ev :: nil) l d = (f, l', d') /\
      loop_return f d' = Returned r /\
      nth_error BAUDRATES (Z.to_nat (index d')) = Some r /\
      loop_return BreakCtlc d' = loop_return BreakSuccess d' /\
      ctlc d' = true.
Proof.
  intros ev l d Hi Hsig.
  destruct (keypresses_keeps (keys ev) d Hi) as [Hi1 [_ Hkeep]].
  assert (Hc : ctlc (keypresses (keys ev) d) = true)
    by (destruct Hsig; auto).
  destruct (body_keeps ev l _ Hi1)
    as [f [l' [d' [Hb [_ [Hi' [Hsame [_ [_ Hexit]]]]]]]]].
  specialize (Hexit Hc).
  destruct (current_rate d' Hi') as [r [Hr Hnth]].
  exists f, l', d', r. unfold iteration.
  split; [exact Hb|]. split; [exact Hexit|].
  split.
  { cbn [loop]. unfold iteration. rewrite Hb.
    destruct Hexit as [-> | ->]; reflexivity. }
  split.
  { destruct Hexit as [-> | ->]; cbn [loop_return]; rewrite Hr; reflexivity. }
  split; [exact Hnth|]. split; [reflexivity|].
  rewrite Hsame. exact Hc.
Qed.

Lemma ctlc_ends_loop_with_current_rate_witness :
  let d := startThread (BaudrateDetector "/dev/ttyUSB0" 25 5 None false true) in
  let ev := mkEvent [String (ascii_of_nat 3) EmptyString] 100%Q None 105%Q in
  exists f l' d' r,
    iteration ev locals0 d = (f, l', d') /\
    (f = BreakCtlc \/ f = BreakSuccess) /\
    loop (ev :: nil) locals0 d = (f, l', d') /\
    loop_return f d' = Returned r /\
    nth_error BAUDRATES (Z.to_nat (index d')) = Some r /\
    loop_return BreakCtlc d' = loop_return BreakSuccess d' /\
    ctlc d' = true.
Proof.
  cbn zeta.
  apply (ctlc_ends_loop_with_current_rate
           (mkEvent [String (ascii_of_nat 3) EmptyString] 100%Q None 105%Q)
           locals0
           (startThread
              (BaudrateDetector "/dev/ttyUSB0" 25 5 None false true))).
  - unfold index_ok. rewrite BAUDRATES_length. cbn. lia.
  - right. reflexivity.
Defined.

(** ** Manual mode *)

(** C6 (counterexample): in manual mode a read that yields no byte sets
    [timedOut] and nothing else; at line 132 [clearCounters] is still
    false, so the counters are not marked for reset, and counters that
    hold a value keep it through the turn. *)
Lemma manual_timeout_marks_nothing :
  let d := startThread (BaudrateDetector "/dev/ttyUSB0" 25 5 None false true) in
  let ev := mkEvent [] 100%Q None 105%Q in
  let l1 := mkLocals 0 0 0 0 100%Q true false in
  receive ev (armTimer ev locals0) d = Ok (false, l1) /\
  rateChange l1 d = (Ok tt, l1, d) /\
  clearCounters l1 = false /\
  body ev locals0 d = (Next, l1, d) /\
  body ev (mkLocals 3 1 1 1 100%Q false false) d
  = (Next, mkLocals 3 1 1 1 100%Q true false, d).
Proof.
  cbn zeta. repeat split; reflexivity.
Qed.

(** C6 (amended): with auto-detect off, a time-out only sets the loop's
    [timedOut] flag.  After a read that yields no byte the turn ends with
    the detector (index, baud rate, signal) untouched, the timer as it was
    armed, the counters unchanged and not marked for reset; after a byte,
    whether the window has elapsed or not changes the outcome of the turn
    in the [timedOut] flag alone (the counters are marked for reset by
    the byte, not by the time-out). *)
Theorem manual_timeout_only_sets_flag :
  forall ev l d,
    autoDetect d = false ->
    clearCounters l = false ->
    (rx ev = None ->
     receive ev (armTimer ev l) d
     = Ok (false, set_timedOut (armTimer ev l) true) /\
     clearCounters (set_timedOut (armTimer ev l) true) = false /\
     body ev l d
     = (if ctlc d then BreakCtlc else Next,
        set_timedOut (armTimer ev l) true, d))
    /\
    (forall b,
       rx ev = Some b ->
       success_condition d (set_clearCounters (armTimer ev l) true) = false ->
       body ev l d
       = (if ctlc d then BreakCtlc else Next,
          mkLocals 0 0 0 0 (startTime (armTimer ev l))
            (timedOut l
             || window_elapsed d (t_check ev)
                  (set_clearCounters (armTimer ev l) true))
            false,
          d)).
Proof.
  intros ev l d Hman Hclr.
  assert (Harm : clearCounters (armTimer ev l) = false).
  { unfold armTimer. destruct (Qeq_bool (startTime l) 0); exact Hclr. }
  assert (Htm : timedOut (armTimer ev l) = timedOut l).
  { unfold armTimer. destruct (Qeq_bool (startTime l) 0); reflexivity. }
  split.
  - intro Hrx. rewrite receive_cases, Hrx.
    split; [reflexivity|]. split; [exact Harm|].
    unfold body. rewrite receive_cases, Hrx.
    unfold rateChange. rewrite Hman, andb_false_r.
    unfold resetCounters. cbn [clearCounters set_timedOut].
    rewrite Harm. destruct (ctlc d); reflexivity.
  - intros b Hrx Hs. unfold body. rewrite receive_cases, Hrx. cbn zeta.
    rewrite Hs.
    destruct (window_elapsed d (t_check ev)
                (set_clearCounters (armTimer ev l) true));
      unfold rateChange, resetCounters, set_timedOut, set_clearCounters,
        set_counters;
      cbn [timedOut clearCounters count whitespace punctuation vowels
           startTime];
      rewrite Hman, ?andb_false_r, ?Htm, ?orb_true_r, ?orb_false_r;
      destruct (ctlc d); reflexivity.
Qed.

Lemma manual_timeout_only_sets_flag_witness :
  let d := startThread (BaudrateDetector "/dev/ttyUSB0" 25 5 None false true) in
  let ev := mkEvent [] 100%Q None 105%Q in
  receive ev (armTimer ev locals0) d
  = Ok (false, set_timedOut (armTimer ev locals0) true) /\
  clearCounters (set_timedOut (armTimer ev locals0) true) = false /\
  body ev locals0 d
  = (if ctlc d then BreakCtlc else Next,
     set_timedOut (armTimer ev locals0) true, d).
Proof.
  cbn zeta.
  destruct (manual_timeout_only_sets_flag
              (mkEvent [] 100%Q None 105%Q) locals0
              (startThread
                 (BaudrateDetector "/dev/ttyUSB0" 25 5 None false true)))
    as [Hnone _].
  - reflexivity.
  - reflexivity.
  - apply Hnone. reflexivity.
Defined.

(** ** The counters *)

Ltac counters :=
  unfold consistent, set_counters, set_clearCounters, set_timedOut,
    set_startTime in *;
  cbn [count whitespace punctuation vowels clearCounters] in *;
  lia.

Lemma classify_consistent :
  forall d byte l l1,
    consistent l -> classify d byte l = Ok l1 -> consistent l1.
Proof.
  intros d byte l l1 Hl. unfold classify, subtag.
  destruct (autoDetect d && py_in_list byte validCharacters).
  - destruct (py_isspace byte).
    + intro H. injection H as <-. counters.
    + destruct (py_in_str byte ".,:;?!") as [[|]|e]; try discriminate.
      * intro H. injection H as <-. counters.
      * destruct (py_in_str byte "aeiouAEIOU") as [[|]|e'];
          try discriminate; intro H; injection H as <-; counters.
  - intro H. injection H as <-. counters.
Qed.

Lemma armTimer_consistent :
  forall ev l, consistent l -> consistent (armTimer ev l).
Proof.
  intros ev l Hl. unfold armTimer.
  destruct (Qeq_bool (startTime l) 0); [counters | exact Hl].
Qed.

Lemma resetCounters_consistent :
  forall l, consistent l -> consistent (resetCounters l).
Proof.
  intros l Hl. unfold resetCounters.
  destruct (clearCounters l); [counters | exact Hl].
Qed.

Lemma rateChange_consistent :
  forall l d o l2 d2,
    consistent l -> rateChange l d = (o, l2, d2) -> consistent l2.
Proof.
  intros l d o l2 d2 Hl. unfold rateChange.
  destruct (timedOut l && autoDetect d).
  - destruct (nextBaudrate BAUDRATES (-1) d) as [[u|e] d'];
      intro H; injection H as <- <- <-; counters.
  - intro H. injection H as <- <- <-. exact Hl.
Qed.

Lemma receive_consistent :
  forall ev l d brk l1,
    consistent l -> receive ev l d = Ok (brk, l1) -> consistent l1.
Proof.
  intros ev l d brk l1 Hl. unfold receive.
  destruct (py_truthy (serial_read (rx ev))).
  - destruct (classify d (serial_read (rx ev)) l) as [l0|e] eqn:Hc;
      [|discriminate].
    apply classify_consistent in Hc; [|exact Hl].
    destruct (echo (serial_read (rx ev))); [|discriminate].
    destruct (success_condition d l0).
    + intro H. injection H as <- <-. exact Hc.
    + destruct (window_elapsed d (t_check ev) l0);
        intro H; injection H as <- <-; [counters | exact Hc].
  - intro H. injection H as <- <-. counters.
Qed.

Lemma body_consistent :
  forall ev l d f l' d',
    consistent l -> body ev l d = (f, l', d') -> consistent l'.
Proof.
  intros ev l d f l' d' Hl. unfold body.
  pose proof (armTimer_consistent ev l Hl) as Ha.
  destruct (receive ev (armTimer ev l) d) as [[[|] l1]|e] eqn:Hr.
  - intro H. injection H as <- <- <-.
    eapply receive_consistent; eassumption.
  - apply receive_consistent in Hr; [|exact Ha].
    destruct (rateChange l1 d) as [[o l2] d2] eqn:Hrc.
    apply rateChange_consistent in Hrc; [|exact Hr].
    destruct o as [u|e].
    + destruct (ctlc d2); intro H; injection H as <- <- <-;
        apply resetCounters_consistent; exact Hrc.
    + intro H. injection H as <- <- <-. exact Hrc.
  - intro H. injection H as <- <- <-. exact Ha.
Qed.

Lemma loop_consistent :
  forall evs l d f l' d',
    consistent l -> loop evs l d = (f, l', d') -> consistent l'.
Proof.
  induction evs as [|ev evs IH]; intros l d f l' d' Hl H.
  - cbn in H. injection H as <- <- <-. exact Hl.
  - cbn [loop] in H. unfold iteration in H.
    destruct (body ev l (keypresses (keys ev) d)) as [[f1 l1] d1] eqn:Hb.
    apply body_consistent in Hb; [|exact Hl].
    destruct f1; try (injection H as <- <- <-; exact Hb).
    eapply IH; eassumption.
Qed.

(** C9: the counters start at zero; along every run of the loop, after the
    classification of a byte, after a rate change and after every turn,
    none of [whitespace], [punctuation], [vowels] exceeds [count] and all
    four are at least zero; and the reset of lines 132-137, when the
    counters are marked, sets all four to zero at once. *)
Theorem counters_consistent :
  forall evs l d,
    consistent l ->
    consistent locals0 /\
    (forall f l' d', loop evs l d = (f, l', d') -> consistent l') /\
    (forall ev f l' d', body ev l d = (f, l', d') -> consistent l') /\
    (forall byte l1, classify d byte l = Ok l1 -> consistent l1) /\
    (forall o l2 d2, rateChange l d = (o, l2, d2) -> consistent l2) /\
    consistent (resetCounters l) /\
    (clearCounters l = true ->
     count (resetCounters l) = 0 /\ whitespace (resetCounters l) = 0 /\
     punctuation (resetCounters l) = 0 /\ vowels (resetCounters l) = 0).
Proof.
  intros evs l d Hl.
  split; [unfold consistent, locals0; cbn; lia|].
  split; [intros; eapply loop_consistent; eassumption|].
  split; [intros; eapply body_consistent; eassumption|].
  split; [intros; eapply classify_consistent; eassumption|].
  split; [intros; eapply rateChange_consistent; eassumption|].
  split; [apply resetCounters_consistent; exact Hl|].
  intro Hc. unfold resetCounters. rewrite Hc. cbn. tauto.
Qed.

Lemma counters_consistent_witness :
  let d := BaudrateDetector "/dev/ttyUSB0" 25 5 None true true in
  let l := mkLocals 3 1 0 2 100%Q false true in
  let evs := [mkEvent [] 100%Q (Some (ascii_of_nat 97)) 101%Q;
              mkEvent [] 102%Q None 107%Q] in
  consistent l /\
  consistent locals0 /\
  (forall f l' d', loop evs l d = (f, l', d') -> consistent l') /\
  (forall ev f l' d', body ev l d = (f, l', d') -> consistent l') /\
  (forall byte l1, classify d byte l = Ok l1 -> consistent l1) /\
  (forall o l2 d2, rateChange l d = (o, l2, d2) -> consistent l2) /\
  consistent (resetCounters l) /\
  (clearCounters l = true ->
   count (resetCounters l) = 0 /\ whitespace (resetCounters l) = 0 /\
   punctuation (resetCounters l) = 0 /\ vowels (resetCounters l) = 0).
Proof.
  cbn zeta.
  assert (H : consistent (mkLocals 3 1 0 2 100%Q false true))
    by (unfold consistent; cbn; lia).
  split; [exact H|].
  apply (counters_consistent
           [mkEvent [] 100%Q (Some (ascii_of_nat 97)) 101%Q;
            mkEvent [] 102%Q None 107%Q]
           (mkLocals 3 1 0 2 100%Q false true)
           (BaudrateDetector "/dev/ttyUSB0" 25 5 None true true)).
  exact H.
Defined.

(** ** The configuration writer *)

(** C10: for every detector whose configuration name is absent ([None],
    as when the option is not given, or the empty string), with its index
    inside the rate table, [minicomConfig] returns the pair of [False] and
    "Configuration name not provided." and leaves the files and the record
    of [open] calls as they were; whenever the call does open a file, a
    non-empty name is present. *)
Theorem minicomConfig_without_name :
  forall d refusal fs,
    index_ok d ->
    (name d = None \/ name d = Some EmptyString ->
     minicomConfig d refusal fs
     = (Ok (false, "Configuration name not provided."), fs))
    /\
    (opened (snd (minicomConfig d refusal fs)) <> opened fs ->
     exists nm,
       name d = Some nm /\ nm <> EmptyString /\
       opened (snd (minicomConfig d refusal fs))
       = (opened fs ++ [("/etc/minicom/minirc." ++ nm)%string])%list).
Proof.
  intros d refusal fs Hi.
  destruct (current_rate d Hi) as [r [Hr _]].
  unfold minicomConfig. rewrite Hr.
  split.
  - intros [Hn | Hn]; rewrite Hn; reflexivity.
  - destruct (name d) as [[|c nm]|]; cbn [name_given].
    + intro H. exfalso. apply H. reflexivity.
    + intros _. exists (String c nm).
      split; [reflexivity|]. split; [discriminate|].
      unfold write_file. destruct refusal as [[msg|msg kept]|]; reflexivity.
    + intro H. exfalso. apply H. reflexivity.
Qed.

Lemma minicomConfig_without_name_witness :
  minicomConfig (BaudrateDetector "/dev/ttyUSB0" 25 5 None true true) None
                (mkFilesystem [] [])
  = (Ok (false, "Configuration name not provided."), mkFilesystem [] []).
Proof.
  destruct (minicomConfig_without_name
              (BaudrateDetector "/dev/ttyUSB0" 25 5 None true true) None
              (mkFilesystem [] []))
    as [Habsent _].
  - unfold index_ok. rewrite BAUDRATES_length. cbn. lia.
  - apply Habsent. left. reflexivity.
Defined.

(** * Further properties *)

(** ** The rate cycler, any step and any sequence *)

Lemma py_getitem_nth_error :
  forall (A : Type) (l : list A) (i : Z) (a : A),
    0 <= i < Z.of_nat (List.length l) ->
    py_getitem l i = Ok a ->
    nth_error l (Z.to_nat i) = Some a.
Proof.
  intros A l i a Hi. unfold py_getitem.
  replace (i <? 0) with false by (symmetry; apply Z.ltb_ge; lia).
  replace ((0 <=? i) && (i <? Z.of_nat (List.length l))) with true
    by (symmetry; apply andb_true_intro;
        split; [apply Z.leb_le | apply Z.ltb_lt]; lia).
  destruct (nth_error l (Z.to_nat i)); congruence.
Qed.

(** X1: on a table of n >= 1 numerals [nextBaudrate] returns for every
    step and from every index, in range or not: the index it leaves is 0
    when index + step reaches n or more, n-1 when index + step is below
    0, and index + step otherwise, so it always lies in [0, n); the port
    is flushed, set to the [int] of the table entry at that index, and
    flushed again, and nothing else of the port or the signal changes. *)
Theorem nextBaudrate_any_step :
  forall (rates : list string) (updn : Z) (d : detector),
    1 <= nrates rates ->
    forallb numeral rates = true ->
    exists d' s r,
      nextBaudrate rates updn d = (Ok tt, d') /\
      index d' =
        (if nrates rates <=? index d + updn then 0
         else if index d + updn <? 0 then nrates rates - 1
         else index d + updn) /\
      0 <= index d' < nrates rates /\
      nth_error rates (Z.to_nat (index d')) = Some s /\
      py_int s = Ok r /\
      baudrate (serial d') = r /\
      ser_ops (serial d')
      = (ser_ops (serial d) ++ [Flush; SetBaudrate r; Flush])%list /\
      ser_port (serial d') = ser_port (serial d) /\
      ser_timeout (serial d') = ser_timeout (serial d) /\
      ctlc d' = ctlc d /\ thread d' = thread d.
Proof.
  intros rates updn d Hn Hnum.
  pose proof (wrap_index_range rates Hn (index d + updn)) as Hr.
  destruct (py_getitem_in_range _ rates _ Hr) as [s [Hs Hin]].
  destruct (numeral_py_int s) as [r Hint].
  { rewrite forallb_forall in Hnum. auto. }
  unfold nextBaudrate. cbn [index set_index set_serial].
  rewrite Hs, Hint.
  eexists. exists s, r. split; [reflexivity|].
  cbn [index serial set_serial set_index baudrate ser_ops ser_port
       ser_timeout flush set_baudrate ctlc thread].
  split; [reflexivity|]. split; [exact Hr|].
  split; [apply py_getitem_nth_error; assumption|].
  split; [exact Hint|]. split; [reflexivity|].
  split; [rewrite <- !app_assoc; reflexivity|].
  repeat split.
Qed.

Lemma nextBaudrate_any_step_witness :
  exists d' s r,
    nextBaudrate BAUDRATES 7
      (set_index (BaudrateDetector "/dev/ttyUSB0" 25 5 None true true) 40)
    = (Ok tt, d') /\
    index d' = 0 /\ 0 <= index d' < 45 /\
    nth_error BAUDRATES (Z.to_nat (index d')) = Some s /\
    py_int s = Ok r /\ baudrate (serial d') = r /\
    ser_ops (serial d') = [Flush; SetBaudrate r; Flush] /\
    ser_port (serial d') = "/dev/ttyUSB0" /\
    ser_timeout (serial d') = 5 /\
    ctlc d' = false /\ thread d' = NotStarted.
Proof.
  apply (nextBaudrate_any_step BAUDRATES 7
           (set_index (BaudrateDetector "/dev/ttyUSB0" 25 5 None true true)
                      40)).
  - rewrite BAUDRATES_length. lia.
  - reflexivity.
Defined.

Lemma wrap_index_mod :
  forall (rates : list string) (i u : Z),
    0 <= i < nrates rates ->
    u = 1 \/ u = -1 ->
    wrap_index rates (i + u) = (i + u) mod nrates rates.
Proof.
  intros rates i u Hi Hu. unfold wrap_index.
  destruct (nrates rates <=? i + u) eqn:Hhi.
  - apply Z.leb_le in Hhi.
    assert (i + u = nrates rates) as -> by lia.
    symmetry. apply Z_mod_same_full.
  - apply Z.leb_gt in Hhi.
    destruct (i + u <? 0) eqn:Hlo.
    + apply Z.ltb_lt in Hlo.
      apply (Z.mod_unique _ _ (-1)); [left; lia | lia].
    + apply Z.ltb_ge in Hlo. symmetry. apply Z.mod_small. lia.
Qed.

(** X2: on a table of n >= 1 numerals and from an index in [0, n), any
    sequence of [nextBaudrate(+1)] and [nextBaudrate(-1)] calls returns
    and leaves the index at (index + sum of the steps) mod n: going
    forward and back cancels, and n steps in one direction come back to
    the start. *)
Theorem nextBaudrates_modular :
  forall (rates : list string) (deltas : list Z) (d : detector),
    1 <= nrates rates ->
    forallb numeral rates = true ->
    0 <= index d < nrates rates ->
    Forall (fun u => u = 1 \/ u = -1) deltas ->
    exists d',
      nextBaudrates rates deltas d = (Ok tt, d') /\
      index d' = (index d + sum_steps deltas) mod nrates rates.
Proof.
  intros rates deltas d Hn Hnum Hi Hsteps. revert d Hi.
  induction Hsteps as [|u us Hu _ IH]; intros d Hi.
  - exists d. split; [reflexivity|].
    cbn [sum_steps]. rewrite Z.add_0_r. symmetry. apply Z.mod_small. exact Hi.
  - cbn [nextBaudrates sum_steps].
    destruct (nextBaudrate_returns rates Hn Hnum u d) as [d1 [Hcall [Hidx _]]].
    rewrite Hcall.
    assert (Hi1 : 0 <= index d1 < nrates rates)
      by (rewrite Hidx; apply wrap_index_range; exact Hn).
    destruct (IH d1 Hi1) as [d' [Hrest Hfin]].
    exists d'. split; [exact Hrest|].
    rewrite Hfin, Hidx, (wrap_index_mod rates _ _ Hi Hu).
    rewrite Zplus_mod_idemp_l. f_equal. lia.
Qed.

Lemma nextBaudrates_modular_witness :
  exists d',
    nextBaudrates BAUDRATES (repeat 1 45)
      (set_index (BaudrateDetector "/dev/ttyUSB0" 25 5 None true true) 7)
    = (Ok tt, d') /\
    index d' = (7 + sum_steps (repeat 1 45)) mod nrates BAUDRATES.
Proof.
  apply (nextBaudrates_modular BAUDRATES (repeat 1 45)
           (set_index (BaudrateDetector "/dev/ttyUSB0" 25 5 None true true)
                      7)).
  - rewrite BAUDRATES_length. lia.
  - reflexivity.
  - rewrite BAUDRATES_length. cbn. lia.
  - cbn [repeat].
    repeat first
      [ apply Forall_nil
      | apply Forall_cons; [left; reflexivity | ] ].
Defined.

(** ** The key-press thread *)

Lemma handleKeypress_ctlc :
  forall ks d, ctlc d = true -> handleKeypress ks d = set_thread d Ended.
Proof.
  intros ks d H. destruct ks; cbn [handleKeypress]; rewrite H; reflexivity.
Qed.

Lemma advance_not_ctlc :
  forall c, is_ctlc c = true -> is_advance c = false.
Proof.
  intros c H. unfold is_ctlc in H. apply String.eqb_eq in H. subst c.
  reflexivity.
Qed.

Lemma count_advances_cons :
  forall c ks,
    count_advances (c :: ks)
    = (if is_advance c then 1 else 0) + count_advances ks.
Proof.
  intros c ks. unfold count_advances. cbn [filter].
  destruct (is_advance c); cbn [List.length]; lia.
Qed.

(** What a batch of keys does to a detector whose signal is not set. *)
Lemma handleKeypress_effect :
  forall ks d,
    index_ok d ->
    ctlc d = false ->
    index (handleKeypress ks d)
    = (index d + count_advances (before_ctlc ks)) mod nrates BAUDRATES /\
    ctlc (handleKeypress ks d) = existsb is_ctlc ks /\
    thread (handleKeypress ks d)
    = (if existsb is_ctlc ks then Ended else thread d) /\
    same_settings d (handleKeypress ks d).
Proof.
  induction ks as [|c ks IH]; intros d Hi Hc.
  - cbn [handleKeypress before_ctlc existsb]. rewrite Hc.
    split; [|keeps].
    change (count_advances []) with 0. rewrite Z.add_0_r.
    symmetry. apply Z.mod_small. exact Hi.
  - cbn [handleKeypress before_ctlc existsb]. rewrite Hc.
    fold (is_advance c). fold (is_ctlc c).
    destruct (is_advance c) eqn:Hadv.
    + assert (Hnc : is_ctlc c = false).
      { destruct (is_ctlc c) eqn:E; [|reflexivity].
        apply advance_not_ctlc in E. congruence. }
      rewrite Hnc. cbn [orb].
      destruct (nextBaudrate_BAUDRATES 1 d)
        as [d1 [Hcall [Hidx [Hi1 [Hc1 [Ht1 Hs1]]]]]].
      rewrite Hcall.
      assert (Hc1' : ctlc d1 = false) by congruence.
      destruct (IH d1 Hi1 Hc1') as [Hidx' [Hctl' [Hth' Hs']]].
      split.
      { rewrite Hidx', Hidx, (wrap_index_mod BAUDRATES _ _ Hi (or_introl eq_refl)).
        rewrite count_advances_cons, Hadv, Zplus_mod_idemp_l.
        f_equal. lia. }
      split; [exact Hctl'|]. split; [rewrite Hth', Ht1; reflexivity|].
      keeps.
    + destruct (is_ctlc c) eqn:Hk.
      * rewrite handleKeypress_ctlc by reflexivity.
        cbn [orb before_ctlc]. split; [|keeps].
        cbn [index set_thread set_ctlc]. change (count_advances []) with 0.
        rewrite Z.add_0_r. symmetry. apply Z.mod_small. exact Hi.
      * cbn [orb]. destruct (IH d Hi Hc) as [Hidx' [Hctl' [Hth' Hs']]].
        rewrite count_advances_cons, Hadv. cbn [Z.add].
        split; [exact Hidx'|]. split; [exact Hctl'|].
        split; [exact Hth' | exact Hs'].
Qed.

(** X3: fed any batch of keys with the signal not yet set,
    [handleKeypress] moves the index forward once (never back) for each
    key found in 'uUAdD' among those pressed before the first Ctrl-C, so
    it ends at (index + their number) mod 45; the signal is set exactly
    when a Ctrl-C is among the keys, the thread has then ended, and keys
    after that Ctrl-C change nothing. *)
Theorem handleKeypress_keys :
  forall ks d,
    index_ok d ->
    ctlc d = false ->
    index (handleKeypress ks d)
    = (index d + count_advances (before_ctlc ks)) mod nrates BAUDRATES /\
    ctlc (handleKeypress ks d) = existsb is_ctlc ks /\
    thread (handleKeypress ks d)
    = (if existsb is_ctlc ks then Ended else thread d) /\
    (forall later,
       existsb is_ctlc ks = true ->
       handleKeypress (ks ++ later) d = handleKeypress ks d).
Proof.
  intros ks d Hi Hc.
  destruct (handleKeypress_effect ks d Hi Hc) as [H1 [H2 [H3 _]]].
  split; [exact H1|]. split; [exact H2|]. split; [exact H3|].
  clear H1 H2 H3. revert d Hi Hc.
  induction ks as [|c ks IH]; intros d Hi Hc later Hex; [discriminate|].
  cbn [handleKeypress app]. rewrite Hc.
  destruct (contains c "uUAdD") eqn:Hadv.
  - destruct (nextBaudrate_BAUDRATES 1 d)
      as [d1 [Hcall [_ [Hi1 [Hc1 _]]]]].
    rewrite Hcall. apply IH; [exact Hi1 | congruence |].
    cbn [existsb] in Hex.
    destruct (is_ctlc c) eqn:Hk; [|exact Hex].
    apply advance_not_ctlc in Hk. unfold is_advance in Hk. congruence.
  - fold (is_ctlc c).
    destruct (is_ctlc c) eqn:Hk.
    + rewrite !handleKeypress_ctlc by reflexivity. reflexivity.
    + cbn [existsb] in Hex. rewrite Hk in Hex. apply IH; assumption.
Qed.

Lemma handleKeypress_keys_witness :
  let d := startThread (BaudrateDetector "/dev/ttyUSB0" 25 5 None false true) in
  let ks := ["u"; "d"; "x"; String (ascii_of_nat 3) EmptyString; "u"] in
  index (handleKeypress ks d)
  = (index d + count_advances (before_ctlc ks)) mod nrates BAUDRATES /\
  ctlc (handleKeypress ks d) = existsb is_ctlc ks /\
  thread (handleKeypress ks d)
  = (if existsb is_ctlc ks then Ended else thread d) /\
  (forall later,
     existsb is_ctlc ks = true ->
     handleKeypress (ks ++ later) d = handleKeypress ks d).
Proof.
  cbn zeta.
  apply (handleKeypress_keys
           ["u"; "d"; "x"; String (ascii_of_nat 3) EmptyString; "u"]
           (startThread
              (BaudrateDetector "/dev/ttyUSB0" 25 5 None false true))).
  - unfold index_ok. rewrite BAUDRATES_length. cbn. lia.
  - reflexivity.
Defined.

(** ** Manual mode, whole runs *)

Lemma handleKeypress_app :
  forall k1 k2 d,
    index_ok d ->
    handleKeypress (k1 ++ k2) d
    = (if ctlc (handleKeypress k1 d) then handleKeypress k1 d
       else handleKeypress k2 (handleKeypress k1 d)).
Proof.
  induction k1 as [|c k1 IH]; intros k2 d Hi.
  - cbn [app]. destruct (ctlc d) eqn:Hc.
    + rewrite !handleKeypress_ctlc by assumption.
      cbn [ctlc set_thread]. rewrite Hc. reflexivity.
    + cbn [handleKeypress]. rewrite !Hc. reflexivity.
  - destruct (ctlc d) eqn:Hc.
    + rewrite !handleKeypress_ctlc by assumption.
      cbn [ctlc set_thread]. rewrite Hc. reflexivity.
    + cbn [handleKeypress app]. rewrite Hc.
      destruct (contains c "uUAdD").
      * destruct (nextBaudrate_BAUDRATES 1 d) as [d1 [Hcall [_ [Hi1 _]]]].
        rewrite Hcall. apply IH. exact Hi1.
      * destruct (String.eqb c (String (ascii_of_nat 3) EmptyString));
          apply IH; exact Hi.
Qed.

(** With auto-detect off the body of a turn leaves [self] alone. *)
Lemma manual_body :
  forall ev l d,
    autoDetect d = false ->
    zeroed l ->
    exists l',
      body ev l d = (if ctlc d then BreakCtlc else Next, l', d) /\ zeroed l'.
Proof.
  intros ev l d Hman Hz. unfold body. rewrite receive_cases.
  assert (Hs : success_condition d (set_clearCounters (armTimer ev l) true)
               = false)
    by (apply zeroed_no_success; zeroes).
  assert (Hrest :
    forall l1, zeroed l1 ->
    exists l',
      (match rateChange l1 d with
       | (Raise e, l2, d2) => (Raised e, l2, d2)
       | (Ok _, l2, d2) =>
           if ctlc d2 then (BreakCtlc, resetCounters l2, d2)
           else (Next, resetCounters l2, d2)
       end) = (if ctlc d then BreakCtlc else Next, l', d) /\ zeroed l').
  { intros l1 Hz1. unfold rateChange. rewrite Hman, andb_false_r.
    exists (resetCounters l1).
    split; [destruct (ctlc d); reflexivity | zeroes]. }
  destruct (rx ev) as [b|].
  - cbn zeta. rewrite Hs.
    destruct (window_elapsed d (t_check ev)
                (set_clearCounters (armTimer ev l) true));
      apply Hrest; zeroes.
  - apply Hrest. zeroes.
Qed.

Lemma loop_manual :
  forall evs l d,
    autoDetect d = false -> thread d = Listening -> ctlc d = false ->
    index_ok d -> zeroed l ->
    exists l',
      loop evs l d
      = (if ctlc (handleKeypress (List.concat (map keys evs)) d)
         then BreakCtlc else Next,
         l', handleKeypress (List.concat (map keys evs)) d).
Proof.
  induction evs as [|ev evs IH]; intros l d Hman Hth Hc Hi Hz.
  - cbn [map List.concat handleKeypress loop]. rewrite !Hc. exists l.
    reflexivity.
  - cbn [map List.concat loop]. unfold iteration, keypresses. rewrite Hth.
    rewrite (handleKeypress_app _ _ _ Hi).
    destruct (handleKeypress_effect (keys ev) d Hi Hc)
      as [_ [Hctl [Hth1 [Hauto _]]]].
    destruct (handleKeypress_keeps (keys ev) d Hi) as [Hi1 _].
    assert (Hman1 : autoDetect (handleKeypress (keys ev) d) = false)
      by congruence.
    destruct (manual_body ev l _ Hman1 Hz) as [l1 [Hb Hz1]].
    rewrite Hb.
    destruct (ctlc (handleKeypress (keys ev) d)) eqn:Hc1.
    + exists l1. rewrite Hc1. reflexivity.
    + apply IH; try assumption.
      rewrite Hth1, <- Hctl. exact Hth.
Qed.

(** X4: with auto-detect off, what [detectBaudrate] returns is decided by
    the keys alone, whatever bytes arrive and whatever the clock shows:
    the call returns exactly when a Ctrl-C has been pressed, the value
    returned is the table entry at (index + number of 'uUAdD' keys
    pressed before that Ctrl-C) mod 45, and [self] ends as the key-press
    thread left it. *)
Theorem manual_run_follows_keys :
  forall evs d,
    autoDetect d = false ->
    ctlc d = false ->
    index_ok d ->
    exists r,
      nth_error BAUDRATES
        (Z.to_nat ((index d
                    + count_advances (before_ctlc (List.concat (map keys evs))))
                   mod nrates BAUDRATES))
      = Some r /\
      detectBaudrate d evs
      = (if existsb is_ctlc (List.concat (map keys evs))
         then Returned r else StillLooping,
         handleKeypress (List.concat (map keys evs)) (startThread d)).
Proof.
  intros evs d Hman Hc Hi.
  assert (Hstart : startThread d = set_thread d Listening)
    by (unfold startThread; rewrite Hman; reflexivity).
  assert (Hi0 : index_ok (startThread d)) by (rewrite Hstart; exact Hi).
  assert (Hc0 : ctlc (startThread d) = false) by (rewrite Hstart; exact Hc).
  assert (Hz0 : zeroed locals0) by (unfold zeroed; cbn; tauto).
  destruct (loop_manual evs locals0 (startThread d)) as [l' Hloop];
    try assumption; try (rewrite Hstart; assumption).
  { rewrite Hstart. reflexivity. }
  destruct (handleKeypress_effect (List.concat (map keys evs)) _ Hi0 Hc0)
    as [Hidx [Hctl _]].
  destruct (handleKeypress_keeps (List.concat (map keys evs)) _ Hi0) as [Hi1 _].
  destruct (current_rate _ Hi1) as [r [Hr Hnth]].
  exists r. split.
  - rewrite Hidx in Hnth. rewrite Hstart in Hnth. exact Hnth.
  - unfold detectBaudrate. rewrite Hloop, Hctl.
    destruct (existsb is_ctlc (List.concat (map keys evs))).
    + cbn [loop_return]. rewrite Hr. reflexivity.
    + reflexivity.
Qed.

Lemma manual_run_follows_keys_witness :
  let d := BaudrateDetector "/dev/ttyUSB0" 25 5 None false true in
  let evs := [mkEvent ["u"; "D"] 100%Q (Some (ascii_of_nat 97)) 101%Q;
              mkEvent [] 101%Q None 106%Q;
              mkEvent ["A"; String (ascii_of_nat 3) EmptyString] 106%Q
                      (Some (ascii_of_nat 255)) 107%Q] in
  exists r,
    nth_error BAUDRATES
      (Z.to_nat ((index d
                  + count_advances (before_ctlc (List.concat (map keys evs))))
                 mod nrates BAUDRATES))
    = Some r /\
    detectBaudrate d evs
    = (if existsb is_ctlc (List.concat (map keys evs))
       then Returned r else StillLooping,
       handleKeypress (List.concat (map keys evs)) (startThread d)).
Proof.
  cbn zeta.
  apply (manual_run_follows_keys
           [mkEvent ["u"; "D"] 100%Q (Some (ascii_of_nat 97)) 101%Q;
            mkEvent [] 101%Q None 106%Q;
            mkEvent ["A"; String (ascii_of_nat 3) EmptyString] 106%Q
                    (Some (ascii_of_nat 255)) 107%Q]
           (BaudrateDetector "/dev/ttyUSB0" 25 5 None false true)).
  - reflexivity.
  - reflexivity.
  - unfold index_ok. rewrite BAUDRATES_length. cbn. lia.
Defined.

(** ** Auto-detect mode on a line that keeps timing out *)

Lemma auto_timeout_turn :
  forall ev l d,
    autoDetect d = true -> ctlc d = false -> thread d = NotStarted ->
    index_ok d -> zeroed l -> Qeq_bool (startTime l) 0 = true ->
    times_out (timeout d) ev = true ->
    exists d',
      iteration ev l d = (Next, mkLocals 0 0 0 0 0%Q false false, d') /\
      index d' = (index d - 1) mod nrates BAUDRATES /\
      autoDetect d' = true /\ ctlc d' = false /\ thread d' = NotStarted /\
      index_ok d' /\ timeout d' = timeout d.
Proof.
  intros ev l d Hauto Hc Hth Hi Hz Hq Hto.
  assert (Hturn :
    forall l1, timedOut l1 = true ->
    exists d',
      (match rateChange l1 d with
       | (Raise e, l2, d2) => (Raised e, l2, d2)
       | (Ok _, l2, d2) =>
           if ctlc d2 then (BreakCtlc, resetCounters l2, d2)
           else (Next, resetCounters l2, d2)
       end) = (Next, mkLocals 0 0 0 0 0%Q false false, d') /\
      index d' = (index d - 1) mod nrates BAUDRATES /\
      autoDetect d' = true /\ ctlc d' = false /\ thread d' = NotStarted /\
      index_ok d' /\ timeout d' = timeout d).
  { intros l1 Hl1.
    destruct (timed_out_turn l1 d Hauto Hl1) as [d' [Hcall [Hidx Heq]]].
    destruct (nextBaudrate_BAUDRATES (-1) d)
      as [d2 [Hcall2 [_ [Hi2 [Hc2 [Ht2 Hs2]]]]]].
    rewrite Hcall in Hcall2. injection Hcall2 as <-.
    exists d'. rewrite Heq, Hc. split; [reflexivity|].
    split.
    { rewrite Hidx.
      rewrite (wrap_index_mod BAUDRATES _ _ Hi (or_intror eq_refl)).
      f_equal. }
    destruct Hs2 as [Ha [_ [Htm _]]].
    repeat split; try congruence; apply Hi2. }
  unfold iteration, keypresses. rewrite Hth.
  unfold body. rewrite receive_cases.
  unfold times_out in Hto.
  destruct (rx ev) as [b|].
  - cbn zeta.
    replace (success_condition d (set_clearCounters (armTimer ev l) true))
      with false by (symmetry; apply zeroed_no_success; zeroes).
    replace (window_elapsed d (t_check ev)
               (set_clearCounters (armTimer ev l) true)) with true.
    + apply Hturn. reflexivity.
    + unfold window_elapsed, armTimer. rewrite Hq. symmetry. exact Hto.
  - apply Hturn. reflexivity.
Qed.

(** X5: in auto-detect mode, on a stream in which every turn runs into a
    time-out (the read returns nothing, or a byte arrives when a whole
    window has passed since the turn began), the loop keeps turning and
    steps the index back once per turn: after k turns it stands at
    (index - k) mod 45, so 45 turns in a row bring it back to where it
    started; counters and timer are clear after every such turn. *)
Theorem auto_timeouts_cycle :
  forall evs l d,
    autoDetect d = true -> ctlc d = false -> thread d = NotStarted ->
    index_ok d -> zeroed l -> Qeq_bool (startTime l) 0 = true ->
    forallb (times_out (timeout d)) evs = true ->
    exists l' d',
      loop evs l d = (Next, l', d') /\
      index d' = (index d - Z.of_nat (List.length evs)) mod nrates BAUDRATES /\
      zeroed l' /\ Qeq_bool (startTime l') 0 = true.
Proof.
  induction evs as [|ev evs IH]; intros l d Hauto Hc Hth Hi Hz Hq Hall.
  - exists l, d. split; [reflexivity|].
    cbn [List.length Z.of_nat]. rewrite Z.sub_0_r.
    split; [symmetry; apply Z.mod_small; exact Hi|]. split; assumption.
  - cbn [forallb] in Hall. apply andb_true_iff in Hall.
    destruct Hall as [Hev Hrest].
    destruct (auto_timeout_turn ev l d Hauto Hc Hth Hi Hz Hq Hev)
      as [d1 [Hit [Hidx [Ha1 [Hc1 [Ht1 [Hi1 Htm1]]]]]]].
    cbn [loop]. rewrite Hit.
    destruct (IH (mkLocals 0 0 0 0 0%Q false false) d1) as [l' [d' [Hl [Hi' Hz']]]];
      try assumption.
    + unfold zeroed. cbn. tauto.
    + reflexivity.
    + rewrite Htm1. exact Hrest.
    + exists l', d'. split; [exact Hl|]. split; [|exact Hz'].
      rewrite Hi', Hidx, Zminus_mod_idemp_l. f_equal.
      cbn [List.length]. lia.
Qed.

Lemma auto_timeouts_cycle_witness :
  let d := BaudrateDetector "/dev/ttyUSB0" 25 5 None true true in
  let evs := [mkEvent [] 100%Q None 105%Q;
              mkEvent [] 105%Q (Some (ascii_of_nat 255)) 111%Q;
              mkEvent [] 111%Q None 116%Q] in
  exists l' d',
    loop evs locals0 d = (Next, l', d') /\
    index d' = (index d - Z.of_nat (List.length evs)) mod nrates BAUDRATES /\
    zeroed l' /\ Qeq_bool (startTime l') 0 = true.
Proof.
  cbn zeta.
  apply (auto_timeouts_cycle
           [mkEvent [] 100%Q None 105%Q;
            mkEvent [] 105%Q (Some (ascii_of_nat 255)) 111%Q;
            mkEvent [] 111%Q None 116%Q]
           locals0
           (BaudrateDetector "/dev/ttyUSB0" 25 5 None true true)).
  - reflexivity.
  - reflexivity.
  - reflexivity.
  - unfold index_ok. rewrite BAUDRATES_length. cbn. lia.
  - unfold zeroed. cbn. tauto.
  - reflexivity.
  - reflexivity.
Defined.

(** ** The call never raises *)

(** X6: from a detector whose index lies inside the rate table,
    [detectBaudrate] never raises, whatever it is fed: as long as the
    input lasts the call is either still in its loop or has returned an
    entry of [BAUDRATES], the one under the index it leaves behind, and
    that index is inside the table again. *)
Theorem detectBaudrate_never_raises :
  forall d evs,
    index_ok d ->
    index_ok (snd (detectBaudrate d evs)) /\
    (fst (detectBaudrate d evs) = StillLooping \/
     exists r,
       fst (detectBaudrate d evs) = Returned r /\
       nth_error BAUDRATES (Z.to_nat (index (snd (detectBaudrate d evs))))
       = Some r /\
       In r BAUDRATES).
Proof.
  intros d evs Hi. unfold detectBaudrate.
  assert (Hi0 : index_ok (startThread d)).
  { unfold startThread. destruct (autoDetect d); exact Hi. }
  destruct (loop evs locals0 (startThread d)) as [[f l'] d'] eqn:Hloop.
  destruct (loop_keeps _ _ _ _ _ _ Hi0 Hloop) as [Hne [Hi' _]].
  cbn [fst snd]. split; [exact Hi'|].
  destruct (current_rate d' Hi') as [r [Hr Hnth]].
  destruct f.
  - left. reflexivity.
  - right. exists r. cbn [loop_return]. rewrite Hr.
    split; [reflexivity|]. split; [exact Hnth|].
    eapply nth_error_In. exact Hnth.
  - right. exists r. cbn [loop_return]. rewrite Hr.
    split; [reflexivity|]. split; [exact Hnth|].
    eapply nth_error_In. exact Hnth.
  - exfalso. apply (Hne e). reflexivity.
Qed.

Lemma detectBaudrate_never_raises_witness :
  let d := BaudrateDetector "/dev/ttyUSB0" 25 5 None false true in
  let evs := [mkEvent ["u"; String (ascii_of_nat 3) EmptyString] 100%Q
                      (Some (ascii_of_nat 97)) 101%Q] in
  index_ok (snd (detectBaudrate d evs)) /\
  (fst (detectBaudrate d evs) = StillLooping \/
   exists r,
     fst (detectBaudrate d evs) = Returned r /\
     nth_error BAUDRATES (Z.to_nat (index (snd (detectBaudrate d evs))))
     = Some r /\
     In r BAUDRATES).
Proof.
  cbn zeta.
  apply (detectBaudrate_never_raises
           (BaudrateDetector "/dev/ttyUSB0" 25 5 None false true)
           [mkEvent ["u"; String (ascii_of_nat 3) EmptyString] 100%Q
                    (Some (ascii_of_nat 97)) 101%Q]).
  unfold index_ok. rewrite BAUDRATES_length. cbn. lia.
Defined.

(** ** What the loop does to the port *)

Lemma last_cons_default :
  forall (A : Type) (l : list A) (a x : A), last (a :: l) x = last l a.
Proof.
  intros A l. induction l as [|b l IH]; intros a x; [reflexivity|].
  change (last (a :: b :: l) x) with (last (b :: l) x).
  rewrite (IH b x), (IH b a). reflexivity.
Qed.

Lemma last_app_default :
  forall (A : Type) (r1 r2 : list A) (x : A),
    last (r1 ++ r2) x = last r2 (last r1 x).
Proof.
  intros A r1 r2. induction r1 as [|a r1 IH]; intro x; [reflexivity|].
  rewrite <- app_comm_cons, !last_cons_default. apply IH.
Qed.

Lemma retuned_same :
  forall d d',
    serial d' = serial d -> index d' = index d -> retuned [] d d'.
Proof.
  intros d d' Hs Hi. unfold retuned. rewrite Hs. cbn [retunes flat_map last].
  rewrite app_nil_r.
  split; [reflexivity|]. split; [reflexivity|]. split; [reflexivity|].
  split; [reflexivity|]. split; [intros _; exact Hi|].
  intro H. exfalso. apply H. reflexivity.
Qed.

Lemma retuned_trans :
  forall r1 r2 a b c,
    retuned r1 a b -> retuned r2 b c -> retuned (r1 ++ r2) a c.
Proof.
  intros r1 r2 a b c [Ho1 [Hp1 [Ht1 [Hb1 [He1 Hn1]]]]]
         [Ho2 [Hp2 [Ht2 [Hb2 [He2 Hn2]]]]].
  unfold retuned.
  split.
  { rewrite Ho2, Ho1. unfold retunes. rewrite flat_map_app, app_assoc.
    reflexivity. }
  split; [congruence|]. split; [congruence|].
  split; [rewrite Hb2, Hb1, last_app_default; reflexivity|].
  split.
  - intro H. apply app_eq_nil in H. destruct H as [H1 H2].
    rewrite (He2 H2). apply He1. exact H1.
  - intros H. destruct r2 as [|x r2].
    + rewrite app_nil_r in H.
      rewrite (He2 eq_refl), Hb2. cbn [last]. apply Hn1. exact H.
    + apply Hn2. discriminate.
Qed.

(** One call of [nextBaudrate] on the program's table. *)
Lemma nextBaudrate_port :
  forall updn d,
  exists d' r,
    nextBaudrate BAUDRATES updn d = (Ok tt, d') /\ retuned [r] d d'.
Proof.
  intros updn d.
  assert (Hn : 1 <= nrates BAUDRATES) by (rewrite BAUDRATES_length; lia).
  pose proof (wrap_index_range BAUDRATES Hn (index d + updn)) as Hr.
  destruct (py_getitem_in_range _ BAUDRATES _ Hr) as [s [Hs Hin]].
  destruct (numeral_py_int s) as [r Hint].
  { pose proof BAUDRATES_numerals as Hnum.
    rewrite forallb_forall in Hnum. auto. }
  unfold nextBaudrate. cbn [index set_index set_serial].
  rewrite Hs, Hint. eexists. exists r. split; [reflexivity|].
  unfold retuned, rate_at.
  cbn [index serial set_serial set_index baudrate ser_ops ser_port
       ser_timeout flush set_baudrate retunes flat_map last].
  rewrite Hs, Hint, <- !app_assoc. cbn [app].
  repeat split; try reflexivity. intro H. discriminate H.
Qed.

Lemma handleKeypress_retuned :
  forall ks d, index_ok d -> exists rs, retuned rs d (handleKeypress ks d).
Proof.
  induction ks as [|c ks IH]; intros d Hi.
  - cbn [handleKeypress]. exists [].
    destruct (ctlc d); apply retuned_same; reflexivity.
  - cbn [handleKeypress].
    destruct (ctlc d); [exists []; apply retuned_same; reflexivity|].
    destruct (contains c "uUAdD").
    + destruct (nextBaudrate_port 1 d) as [d1 [r [Hcall Hr]]].
      destruct (nextBaudrate_BAUDRATES 1 d) as [d2 [Hcall2 [_ [Hi2 _]]]].
      rewrite Hcall in Hcall2. injection Hcall2 as <-.
      rewrite Hcall. destruct (IH d1 Hi2) as [rs Hrs].
      exists ([r] ++ rs)%list. eapply retuned_trans; eassumption.
    + destruct (String.eqb c (String (ascii_of_nat 3) EmptyString)).
      * destruct (IH (set_ctlc d true) Hi) as [rs Hrs].
        exists rs. exact Hrs.
      * apply IH. exact Hi.
Qed.

Lemma body_retuned :
  forall ev l d f l' d',
    body ev l d = (f, l', d') -> exists rs, retuned rs d d'.
Proof.
  intros ev l d f l' d'. unfold body. rewrite receive_cases.
  assert (Hrest :
    forall l1,
      (match rateChange l1 d with
       | (Raise e, l2, d2) => (Raised e, l2, d2)
       | (Ok _, l2, d2) =>
           if ctlc d2 then (BreakCtlc, resetCounters l2, d2)
           else (Next, resetCounters l2, d2)
       end) = (f, l', d') -> exists rs, retuned rs d d').
  { intro l1.
    destruct (rateChange_cases l1 d) as [[_ Hrc] | [_ [d2 [Hcall [Hrc _]]]]];
      rewrite Hrc.
    - destruct (ctlc d); intro H; injection H as <- <- <-;
        exists []; apply retuned_same; reflexivity.
    - destruct (nextBaudrate_port (-1) d) as [d3 [r [Hcall3 Hr]]].
      rewrite Hcall in Hcall3. injection Hcall3 as <-.
      destruct (ctlc d2); intro H; injection H as <- <- <-;
        exists [r]; exact Hr. }
  destruct (rx ev) as [b|]; [|apply Hrest].
  cbn zeta.
  destruct (success_condition d (set_clearCounters (armTimer ev l) true)).
  - intro H. injection H as <- <- <-. exists [].
    apply retuned_same; reflexivity.
  - destruct (window_elapsed d (t_check ev)
                (set_clearCounters (armTimer ev l) true)); apply Hrest.
Qed.

Lemma loop_retuned :
  forall evs l d f l' d',
    index_ok d -> loop evs l d = (f, l', d') -> exists rs, retuned rs d d'.
Proof.
  induction evs as [|ev evs IH]; intros l d f l' d' Hi H.
  - cbn in H. injection H as <- <- <-. exists [].
    apply retuned_same; reflexivity.
  - cbn [loop] in H.
    destruct (iteration_keeps ev l d Hi) as [f1 [l1 [d1 [Hit [_ [Hi1 _]]]]]].
    rewrite Hit in H.
    assert (Hstep : exists rs, retuned rs d d1).
    { unfold iteration in Hit.
      destruct (body_retuned _ _ _ _ _ _ Hit) as [r2 Hr2].
      assert (Hk : exists r1, retuned r1 d (keypresses (keys ev) d)).
      { unfold keypresses. destruct (thread d).
        - exists []. apply retuned_same; reflexivity.
        - apply handleKeypress_retuned. exact Hi.
        - exists []. apply retuned_same; reflexivity. }
      destruct Hk as [r1 Hr1].
      exists (r1 ++ r2)%list. eapply retuned_trans; eassumption. }
    destruct Hstep as [rs1 Hrs1].
    destruct f1; try (injection H as <- <- <-; exists rs1; exact Hrs1).
    destruct (IH _ _ _ _ _ Hi1 H) as [rs2 Hrs2].
    exists (rs1 ++ rs2)%list. eapply retuned_trans; eassumption.
Qed.

(** X7: along any run of the loop, key presses included, the port is only
    ever touched by whole rate changes: its record of operations grows by
    a sequence of blocks flush, set rate, flush, its name and read
    time-out stay as opened, and its rate is the last one set.  If the
    run made no rate change the index is where it was; if it made one,
    the port runs at the [int] of the table entry under the final index. *)
Theorem loop_retunes_port :
  forall evs l d f l' d',
    index_ok d ->
    loop evs l d = (f, l', d') ->
    exists rs,
      ser_ops (serial d') = (ser_ops (serial d) ++ retunes rs)%list /\
      ser_port (serial d') = ser_port (serial d) /\
      ser_timeout (serial d') = ser_timeout (serial d) /\
      baudrate (serial d') = last rs (baudrate (serial d)) /\
      (rs = [] -> index d' = index d) /\
      (rs <> [] -> rate_at (index d') = Ok (baudrate (serial d'))).
Proof.
  intros evs l d f l' d' Hi H.
  destruct (loop_retuned _ _ _ _ _ _ Hi H) as [rs Hrs].
  exists rs. exact Hrs.
Qed.

Lemma loop_retunes_port_witness :
  let d := BaudrateDetector "/dev/ttyUSB0" 25 5 None true true in
  let evs := [mkEvent [] 100%Q None 105%Q;
              mkEvent [] 105%Q (Some (ascii_of_nat 97)) 106%Q] in
  let d' := snd (loop evs locals0 d) in
  exists rs,
    ser_ops (serial d') = (ser_ops (serial d) ++ retunes rs)%list /\
    ser_port (serial d') = ser_port (serial d) /\
    ser_timeout (serial d') = ser_timeout (serial d) /\
    baudrate (serial d') = last rs (baudrate (serial d)) /\
    (rs = [] -> index d' = index d) /\
    (rs <> [] -> rate_at (index d') = Ok (baudrate (serial d'))).
Proof.
  cbn zeta.
  apply (loop_retunes_port
           [mkEvent [] 100%Q None 105%Q;
            mkEvent [] 105%Q (Some (ascii_of_nat 97)) 106%Q]
           locals0
           (BaudrateDetector "/dev/ttyUSB0" 25 5 None true true)
           Next
           (mkLocals 0 0 0 0 105%Q false false)).
  - unfold index_ok. rewrite BAUDRATES_length. cbn. lia.
  - reflexivity.
Defined.

(** ** Saving the configuration *)

Lemma read_file_filter_other :
  forall (path p : string) (fl : list (string * string)),
    p <> path ->
    read_file p (filter (fun f => negb (String.eqb (fst f) path)) fl)
    = read_file p fl.
Proof.
  intros path p fl Hp. induction fl as [|[q t] fl IH]; [reflexivity|].
  cbn [filter fst read_file].
  destruct (String.eqb q path) eqn:Hq; cbn [negb].
  - apply String.eqb_eq in Hq. subst q.
    replace (String.eqb path p) with false
      by (symmetry; apply String.eqb_neq; congruence).
    exact IH.
  - cbn [read_file]. rewrite IH. reflexivity.
Qed.

(** X8: with a non-empty name and the index inside the rate table,
    [minicomConfig] opens /etc/minicom/minirc.<name> once and touches no
    other file, whatever happens.  If nothing fails, the call returns
    [True] with the text written, the file holds exactly that text
    afterwards, and the text carries the port and the table entry under
    the current index on its "pu port" and "pu baudrate" lines.  If
    [open] fails, the call returns [False] with "Error saving minicom
    config file: " followed by the text of the exception, and no file
    changes.  If the write fails after [open] has cut the file, the call
    returns the same kind of message, and the file is left holding only
    the part of the text that reached it: what it held before is lost. *)
Theorem minicomConfig_with_name :
  forall d refusal fs nm,
    index_ok d ->
    name d = Some nm ->
    nm <> EmptyString ->
    exists rate,
      nth_error BAUDRATES (Z.to_nat (index d)) = Some rate /\
      let path := "/etc/minicom/minirc." ++ nm in
      let text := config_text (port d) rate in
      opened (snd (minicomConfig d refusal fs)) = (opened fs ++ [path])%list /\
      (exists a b,
         text = a ++ "pu port             " ++ port d ++ nl
                ++ "pu baudrate         " ++ rate ++ nl ++ b) /\
      (forall p,
         p <> path ->
         read_file p (files (snd (minicomConfig d refusal fs)))
         = read_file p (files fs)) /\
      match refusal with
      | None =>
          fst (minicomConfig d refusal fs) = Ok (true, text) /\
          read_file path (files (snd (minicomConfig d refusal fs)))
          = Some text
      | Some (OpenFails msg) =>
          fst (minicomConfig d refusal fs)
          = Ok (false, "Error saving minicom config file: " ++ msg) /\
          files (snd (minicomConfig d refusal fs)) = files fs
      | Some (WriteFails msg kept) =>
          fst (minicomConfig d refusal fs)
          = Ok (false, "Error saving minicom config file: " ++ msg) /\
          read_file path (files (snd (minicomConfig d refusal fs)))
          = Some (substring 0 kept text)
      end.
Proof.
  intros d refusal fs nm Hi Hn Hne.
  destruct (current_rate d Hi) as [rate [Hr Hnth]].
  exists rate. split; [exact Hnth|]. cbn zeta.
  unfold minicomConfig. rewrite Hr, Hn.
  assert (Hg : name_given (Some nm) = Some nm).
  { destruct nm; [contradiction Hne; reflexivity | reflexivity]. }
  rewrite Hg. unfold write_file.
  assert (Hlines :
    exists a b,
      config_text (port d) rate
      = a ++ "pu port             " ++ port d ++ nl
        ++ "pu baudrate         " ++ rate ++ nl ++ b).
  { exists (hashes ++ nl ++ "# Minicom configuration file - use "
            ++ dquote ++ "minicom -s" ++ dquote
            ++ " to change parameters." ++ nl).
    exists ("pu bits             8" ++ nl
            ++ "pu parity           N" ++ nl
            ++ "pu stopbits         1" ++ nl
            ++ "pu rtscts           No" ++ nl ++ hashes ++ nl).
    reflexivity. }
  assert (Hothers :
    forall text p,
      p <> "/etc/minicom/minirc." ++ nm ->
      read_file p (store ("/etc/minicom/minirc." ++ nm) text (files fs))
      = read_file p (files fs)).
  { intros text p Hp. unfold store. cbn [read_file].
    replace (String.eqb ("/etc/minicom/minirc." ++ nm) p) with false
      by (symmetry; apply String.eqb_neq; congruence).
    apply read_file_filter_other. exact Hp. }
  assert (Hheld :
    forall text,
      read_file ("/etc/minicom/minirc." ++ nm)
                (store ("/etc/minicom/minirc." ++ nm) text (files fs))
      = Some text).
  { intro text. unfold store. cbn [read_file].
    rewrite String.eqb_refl. reflexivity. }
  destruct refusal as [[msg|msg kept]|]; cbn [fst snd files opened].
  - split; [reflexivity|]. split; [exact Hlines|].
    split; [reflexivity|]. split; reflexivity.
  - split; [reflexivity|]. split; [exact Hlines|].
    split; [apply Hothers|]. split; [reflexivity | apply Hheld].
  - split; [reflexivity|]. split; [exact Hlines|].
    split; [apply Hothers|]. split; [reflexivity | apply Hheld].
Qed.

Lemma minicomConfig_with_name_witness :
  let d := BaudrateDetector "/dev/ttyUSB0" 25 5 (Some "lab") true true in
  let fs := mkFilesystem [("/etc/minicom/minirc.lab", "old");
                          ("/etc/hosts", "h")] [] in
  let refusal := Some (WriteFails "No space left on device" 10) in
  exists rate,
    nth_error BAUDRATES (Z.to_nat (index d)) = Some rate /\
    let path := "/etc/minicom/minirc." ++ "lab" in
    let text := config_text (port d) rate in
    opened (snd (minicomConfig d refusal fs)) = (opened fs ++ [path])%list /\
    (exists a b,
       text = a ++ "pu port             " ++ port d ++ nl
              ++ "pu baudrate         " ++ rate ++ nl ++ b) /\
    (forall p,
       p <> path ->
       read_file p (files (snd (minicomConfig d refusal fs)))
       = read_file p (files fs)) /\
    fst (minicomConfig d refusal fs)
    = Ok (false, "Error saving minicom config file: No space left on device")
    /\
    read_file path (files (snd (minicomConfig d refusal fs)))
    = Some (substring 0 10 text).
Proof.
  cbn zeta.
  apply (minicomConfig_with_name
           (BaudrateDetector "/dev/ttyUSB0" 25 5 (Some "lab") true true)
           (Some (WriteFails "No space left on device" 10))
           (mkFilesystem [("/etc/minicom/minirc.lab", "old");
                          ("/etc/hosts", "h")] [])
           "lab").
  - unfold index_ok. rewrite BAUDRATES_length. cbn. lia.
  - reflexivity.
  - discriminate.
Defined.

(** ** The program entry *)












(** ** The classifier on text *)

Lemma text_tags :
  forall c : ascii,
    contains (String c EmptyString) ".,:;?!" = punctuation_code (ord c) /\
    contains (String c EmptyString) "aeiouAEIOU" = vowel_code (ord c) /\
    ((32 <=? ord c) && (ord c <=? 126) && str_space c
     = (32 <=? ord c) && (ord c <=? 126) && (ord c =? 32)) /\
    (Z.b2z (ord c =? 32) + Z.b2z (punctuation_code (ord c))
     + Z.b2z (vowel_code (ord c)) <=? 1) = true.
Proof.
  intro c.
  destruct c as [[] [] [] [] [] [] [] []]; vm_compute; repeat split.
Qed.

(** X11: handed a character as text in auto-detect mode, lines 105-113
    count every printable character (code 32-126) once in [count] and in
    at most one sub-tag: [whitespace] for the space alone (tab and
    newline are not printable, so they are never counted as white space),
    [punctuation] for one of . , : ; ? ! and [vowels] for one of
    a e i o u A E I O U; the other counters and the reset mark are left
    as they were. *)
Theorem classify_text_subtags :
  forall (d : detector) (c : ascii) (l : locals),
    autoDetect d = true ->
    32 <= ord c <= 126 ->
    classify d (Str (String c EmptyString)) l
    = Ok (set_counters l
            (count l + 1)
            (whitespace l + Z.b2z (ord c =? 32))
            (punctuation l + Z.b2z (punctuation_code (ord c)))
            (vowels l + Z.b2z (vowel_code (ord c)))) /\
    Z.b2z (ord c =? 32) + Z.b2z (punctuation_code (ord c))
    + Z.b2z (vowel_code (ord c)) <= 1.
Proof.
  intros d c l Hauto Hc.
  destruct (text_tags c) as [Hp [Hv [Hw Hx]]].
  apply Z.leb_le in Hx. split; [|exact Hx].
  assert (Hr : (32 <=? ord c) && (ord c <=? 126) = true).
  { apply andb_true_intro. split; apply Z.leb_le; lia. }
  rewrite Hr in Hw. cbn [andb] in Hw.
  unfold classify, subtag. rewrite Hauto, valid_text_printable, Hr.
  cbn [andb py_isspace all_chars py_in_str].
  rewrite andb_true_r, Hw, Hp, Hv.
  destruct (ord c =? 32), (punctuation_code (ord c)), (vowel_code (ord c));
    cbn [Z.b2z] in *; try lia;
    unfold set_counters;
    cbn [count whitespace punctuation vowels startTime timedOut
         clearCounters];
    rewrite ?Z.add_0_r; reflexivity.
Qed.

Lemma classify_text_subtags_witness :
  let d := BaudrateDetector "/dev/ttyUSB0" 25 5 None true true in
  let c := ascii_of_nat 44 in
  classify d (Str (String c EmptyString)) locals0
  = Ok (set_counters locals0
          (count locals0 + 1)
          (whitespace locals0 + Z.b2z (ord c =? 32))
          (punctuation locals0 + Z.b2z (punctuation_code (ord c)))
          (vowels locals0 + Z.b2z (vowel_code (ord c)))) /\
  Z.b2z (ord c =? 32) + Z.b2z (punctuation_code (ord c))
  + Z.b2z (vowel_code (ord c)) <= 1.
Proof.
  cbn zeta.
  apply (classify_text_subtags
           (BaudrateDetector "/dev/ttyUSB0" 25 5 None true true)
           (ascii_of_nat 44) locals0).
  - reflexivity.
  - vm_compute. split; discriminate.
Defined.

(** ** The table of valid characters *)

Lemma in_chr_list_single :
  forall (s : string) (codes : list nat),
    py_in_list (Str s) (map chr codes) = true ->
    exists c, s = String c EmptyString.
Proof.
  intros s codes. unfold py_in_list.
  induction codes as [|i codes IH]; [discriminate|].
  cbn [map existsb]. intro H. apply orb_true_iff in H.
  destruct H as [H | H]; [|apply IH; exact H].
  cbn [chr py_eq] in H. apply String.eqb_eq in H.
  exists (ascii_of_nat i). exact H.
Qed.

(** X12: the list that [_generateCharList] builds holds 95 objects, and an
    object is found in it exactly when it is a [str] of one character
    whose code lies in 32-126; the empty string, longer strings and every
    [bytes] object, whatever its content, are not in it. *)
Theorem validCharacters_membership :
  forall x : pyval,
    List.length validCharacters = 95%nat /\
    (py_in_list x validCharacters = true <->
     exists c, x = Str (String c EmptyString) /\ 32 <= ord c <= 126).
Proof.
  intro x. split; [reflexivity|]. split.
  - intro H. destruct x as [s|b].
    + destruct (in_chr_list_single s _ H) as [c ->].
      exists c. split; [reflexivity|]. apply valid_text_iff. exact H.
    + rewrite bytes_not_valid in H. discriminate H.
  - intros [c [-> Hc]]. apply valid_text_iff. exact Hc.
Qed.

(** ** Auto-detect mode inside the window *)

(** X13: in auto-detect mode with a positive time-out, once the timer
    is set to a clock reading that is at least the time-out (as the
    seconds since 1970 are: the difference of such a reading and a later
    one, when below the time-out, is then the same in floating point as
    in exact arithmetic), turns in which a byte arrives before the window
    has elapsed change neither the index nor the port nor the timer,
    however many they are and whatever the bytes: the loop keeps turning
    on the same rate, with the window still counted from the first of
    these turns, so a steady flow of bytes does not put off the
    time-out. *)
Theorem auto_window_keeps_rate :
  forall evs l d,
    autoDetect d = true -> ctlc d = false -> thread d = NotStarted ->
    zeroed l -> timedOut l = false ->
    0 < timeout d ->
    (inject_Z (timeout d) <= startTime l)%Q ->
    forallb (fun ev =>
               match rx ev with
               | Some _ => negb (window_elapsed d (t_check ev) l)
               | None => false
               end) evs = true ->
    exists l',
      loop evs l d = (Next, l', d) /\
      startTime l' = startTime l /\ zeroed l' /\ timedOut l' = false.
Proof.
  induction evs as [|ev evs IH]; intros l d Hauto Hc Hth Hz Hto Hpos Hge Hall.
  - exists l. auto.
  - assert (Hq : Qeq_bool (startTime l) 0 = false).
    { destruct (Qeq_bool (startTime l) 0) eqn:E; [|reflexivity].
      apply Qeq_bool_iff in E. exfalso.
      unfold Qeq, Qle, inject_Z in *. cbn [Qnum Qden] in *. nia. }
    cbn [forallb] in Hall. apply andb_true_iff in Hall.
    destruct Hall as [Hev Hrest].
    destruct (rx ev) as [b|] eqn:Hrx; [|discriminate].
    apply negb_true_iff in Hev.
    assert (Harm : armTimer ev l = l) by (unfold armTimer; rewrite Hq; reflexivity).
    assert (Hit :
      iteration ev l d
      = (Next,
         set_clearCounters (set_counters (set_clearCounters l true) 0 0 0 0)
                           false, d)).
    { unfold iteration, keypresses. rewrite Hth.
      unfold body. rewrite receive_cases, Hrx, Harm. cbn zeta.
      replace (success_condition d (set_clearCounters l true)) with false
        by (symmetry; apply zeroed_no_success; zeroes).
      change (window_elapsed d (t_check ev) (set_clearCounters l true))
        with (window_elapsed d (t_check ev) l).
      rewrite Hev. unfold rateChange.
      cbn [timedOut set_clearCounters]. rewrite Hto. cbn [andb].
      unfold resetCounters. cbn [clearCounters set_clearCounters].
      rewrite Hc. reflexivity. }
    cbn [loop]. rewrite Hit.
    destruct (IH (set_clearCounters
                    (set_counters (set_clearCounters l true) 0 0 0 0) false)
                 d) as [l' [Hl [Hs [Hz' Hto']]]]; try assumption.
    + unfold zeroed. cbn. tauto.
    + exists l'. split; [exact Hl|]. split; [exact Hs|]. split; assumption.
Qed.

Lemma auto_window_keeps_rate_witness :
  let d := BaudrateDetector "/dev/ttyUSB0" 25 5 None true true in
  let l := mkLocals 0 0 0 0 100%Q false false in
  let evs := [mkEvent [] 100%Q (Some (ascii_of_nat 97)) 101%Q;
              mkEvent [] 101%Q (Some (ascii_of_nat 0)) 104%Q] in
  (0 < timeout d /\ (inject_Z (timeout d) <= startTime l)%Q) /\
  exists l',
    loop evs l d = (Next, l', d) /\
    startTime l' = startTime l /\ zeroed l' /\ timedOut l' = false.
Proof.
  cbn zeta.
  assert (Hpos : 0 < timeout (BaudrateDetector "/dev/ttyUSB0" 25 5 None
                                                true true))
    by (cbn; lia).
  assert (Hge : (inject_Z (timeout (BaudrateDetector "/dev/ttyUSB0" 25 5
                                                      None true true))
                 <= startTime (mkLocals 0 0 0 0 100%Q false false))%Q)
    by (unfold Qle; cbn; lia).
  split; [split; assumption|].
  apply (auto_window_keeps_rate
           [mkEvent [] 100%Q (Some (ascii_of_nat 97)) 101%Q;
            mkEvent [] 101%Q (Some (ascii_of_nat 0)) 104%Q]
           (mkLocals 0 0 0 0 100%Q false false)
           (BaudrateDetector "/dev/ttyUSB0" 25 5 None true true));
    try reflexivity; try assumption.
  unfold zeroed. cbn. tauto.
Defined.
